(** * Text-to-schema front end: a shallow embedding of the application glue

    The development follows the TypeScript sources of the editor:

    - [App.tsx]          ([getLayoutedElements], [processText],
                          [handleDeleteFromContext], [findHighlightRange]);
    - [ExportPanel.tsx]  ([exportToBpmn], [exportToJson], [exportToMermaid]);
    - [ModelSelector.tsx] ([fetchModels] and the render switch);
    - [TextEditor.tsx]   (the three [substring] calls of the overlay).

    JavaScript strings are sequences of UTF-16 code units and are modelled as
    lists of code units, so that [trim], [split], [indexOf] and [substring]
    keep their meaning on every string.  Numbers are binary64 floats.
    External collaborators (the HTTP backend, the ELK layout engine, the Fuse
    search library, number printing) are parameters of the model. *)

From Stdlib Require Import List String Ascii Bool NArith ZArith Lia Floats.
Import ListNotations.

#[local] Set Warnings "-inexact-float".

(* ===================================================================== *)
(** * JavaScript strings *)
(* ===================================================================== *)

Module JsString.

Definition code_unit := N.
Definition jsstring := list code_unit.

  (** An ASCII literal of the source, as code units. *)
Definition lit (s : string) : jsstring :=
    List.map N_of_ascii (list_ascii_of_string s).

Fixpoint eqb (a b : jsstring) : bool :=
    match a, b with
    | [], [] => true
    | x :: a', y :: b' => N.eqb x y && eqb a' b'
    | _, _ => false
    end.

  (** [s.length] *)
Definition length (s : jsstring) : Z := Z.of_nat (List.length s).

  (** A string is truthy exactly when it is not empty. *)
Definition truthy (s : jsstring) : bool :=
    match s with [] => false | _ :: _ => true end.

  (** [Boolean(x)] / [x ? .. : ..] / [!x] on a value of type [string | undefined]. *)
Definition truthy_opt (s : option jsstring) : bool :=
    match s with Some s' => truthy s' | None => false end.

  (** ECMAScript WhiteSpace and LineTerminator code units, the set that
      [String.prototype.trim] strips. *)
Definition is_white_space (c : code_unit) : bool :=
    ((9 <=? c) && (c <=? 13)                (* TAB LF VT FF CR *)
     || (c =? 32) || (c =? 160)             (* SP, NBSP *)
     || (c =? 5760)                         (* U+1680 *)
     || ((8192 <=? c) && (c <=? 8202))      (* U+2000 .. U+200A *)
     || (c =? 8232) || (c =? 8233)          (* LS, PS *)
     || (c =? 8239) || (c =? 8287)          (* U+202F, U+205F *)
     || (c =? 12288) || (c =? 65279))%N.    (* U+3000, U+FEFF *)

Fixpoint trimStart (s : jsstring) : jsstring :=
    match s with
    | [] => []
    | c :: s' => if is_white_space c then trimStart s' else s
    end.

Definition trimEnd (s : jsstring) : jsstring := rev (trimStart (rev s)).

  (** [s.trim()] *)
Definition trim (s : jsstring) : jsstring := trimEnd (trimStart s).

  (** [s.startsWith(p)] at position 0 *)
Fixpoint starts_with (p s : jsstring) : bool :=
    match p, s with
    | [], _ => true
    | _ :: _, [] => false
    | a :: p', b :: s' => N.eqb a b && starts_with p' s'
    end.

  (** [s.indexOf(pat)]: the least position at which [pat] occurs, or -1. *)
Fixpoint indexOf_from (i : Z) (s pat : jsstring) : Z :=
    if starts_with pat s then i
    else match s with
         | [] => (-1)%Z
         | _ :: s' => indexOf_from (i + 1) s' pat
         end.

Definition indexOf (s pat : jsstring) : Z := indexOf_from 0 s pat.

  (** Argument clamping of [substring]: into the interval [0, s.length]. *)
Definition clamp (s : jsstring) (z : Z) : nat :=
    Z.to_nat (Z.max 0 (Z.min z (length s))).

  (** [s.substring(a, b)]: both ends clamped, swapped when out of order. *)
Definition substring (s : jsstring) (a b : Z) : jsstring :=
    let lo := Nat.min (clamp s a) (clamp s b) in
    let hi := Nat.max (clamp s a) (clamp s b) in
    firstn (hi - lo) (skipn lo s).

  (** [s.substring(a)] *)
Definition substring_from (s : jsstring) (a : Z) : jsstring :=
    skipn (clamp s a) s.

  (** The character class of the regular expression [/[.!?]+/]. *)
Definition is_sentence_end (c : code_unit) : bool :=
    ((c =? 46) || (c =? 33) || (c =? 63))%N.

  (** [s.split(/[.!?]+/)].  [in_sep] records that the scan is inside a run of
      separators (the greedy [+]), where no piece is being collected; [cur]
      is the piece being collected, in reverse.  The piece before a run and
      the piece after the last run are always emitted, also when empty, as
      [split] does. *)
Fixpoint split_go (in_sep : bool) (cur : jsstring) (s : jsstring)
    : list jsstring :=
    match s with
    | [] => [rev cur]
    | c :: s' =>
        if is_sentence_end c then
          if in_sep then split_go true [] s'
          else rev cur :: split_go true [] s'
        else split_go false (c :: cur) s'
    end.

Definition split_sentences (s : jsstring) : list jsstring :=
    split_go false [] s.

  (** [arr.join(sep)] *)
Fixpoint join (sep : jsstring) (l : list jsstring) : jsstring :=
    match l with
    | [] => []
    | [x] => x
    | x :: rest => x ++ sep ++ join sep rest
    end.

  (** Template-literal conversion of an array index: its decimal digits. *)
Fixpoint digits_of_uint (d : Decimal.uint) : jsstring :=
    match d with
    | Decimal.Nil => []
    | Decimal.D0 d' => 48%N :: digits_of_uint d'
    | Decimal.D1 d' => 49%N :: digits_of_uint d'
    | Decimal.D2 d' => 50%N :: digits_of_uint d'
    | Decimal.D3 d' => 51%N :: digits_of_uint d'
    | Decimal.D4 d' => 52%N :: digits_of_uint d'
    | Decimal.D5 d' => 53%N :: digits_of_uint d'
    | Decimal.D6 d' => 54%N :: digits_of_uint d'
    | Decimal.D7 d' => 55%N :: digits_of_uint d'
    | Decimal.D8 d' => 56%N :: digits_of_uint d'
    | Decimal.D9 d' => 57%N :: digits_of_uint d'
    end.

Definition of_index (i : nat) : jsstring := digits_of_uint (Nat.to_uint i).

  (** [t] occurs in [s] as a contiguous substring. *)
Definition occurs_in (t s : jsstring) : Prop :=
    exists pre post, s = pre ++ t ++ post.

  (** Executable version of [occurs_in]. *)
Fixpoint includes (s t : jsstring) : bool :=
    starts_with t s ||
    match s with
    | [] => false
    | _ :: s' => includes s' t
    end.

Definition newline : jsstring := [10%N].

End JsString.

Import JsString.

(* ===================================================================== *)
(** * Data model ([types.ts], reactflow, elkjs) *)
(* ===================================================================== *)

(** JavaScript numbers. *)
Definition number := float.

(** Text shown to the user; the code only stores and displays it. *)
Definition UiText := string.

Module XYPosition.
Record t := mk { x : number; y : number }.
End XYPosition.

(** ** Backend response: [FlowData] *)

Module FlowNode.
Record t := mk {
    id : jsstring;
    label : jsstring;
    type : option jsstring;
    actor : option jsstring;
    sourceSpan : option (number * number)
  }.
End FlowNode.

Module FlowEdge.
Record t := mk {
    from : jsstring;
    to : jsstring;
    label : option jsstring
  }.
End FlowEdge.

Module FlowLane.
Record t := mk { id : jsstring; label : jsstring; nodes : list jsstring }.
End FlowLane.

Module FlowData.
Record t := mk {
    nodes : list FlowNode.t;
    edges : list FlowEdge.t;
    lanes : option (list FlowLane.t)
  }.
End FlowData.

(** ** React Flow nodes *)

(** The element [<CustomNodeContent label actor isAction />], by its props. *)
Module CustomNodeContent.
Record t := mk {
    label : jsstring;
    actor : option jsstring;
    isAction : bool
  }.
End CustomNodeContent.

Module NodeData.
Record t := mk {
    label : CustomNodeContent.t;
    text : jsstring;
    actor : option jsstring;
    isAction : option bool;
    sourceSpan : option (number * number)
  }.
End NodeData.

Module NodeStyle.
Record t := mk {
    backgroundColor : jsstring;
    borderColor : jsstring;
    color : jsstring;
    borderRadius : number;
    width : number;
    textAlign : jsstring;
    padding : number
  }.
End NodeStyle.

Module RFNode.
Record t := mk {
    id : jsstring;
    type : jsstring;
    data : NodeData.t;
    position : XYPosition.t;
    style : NodeStyle.t
  }.

  (** [{ ...n, position: p }] *)
Definition with_position (n : t) (p : XYPosition.t) : t :=
    mk (id n) (type n) (data n) p (style n).
End RFNode.

(** A run-time element of the node list.  [getLayoutedElements] builds its
    nodes as [{ ...nodes.find(..), position }]; when [find] yields
    [undefined] the spread contributes nothing and the object carries a
    position only. *)
Module NodeObj.
Inductive t :=
  | Full (n : RFNode.t)
  | PositionOnly (p : XYPosition.t).

  (** [n.id], which is [undefined] on an object without that field. *)
Definition id (n : t) : option jsstring :=
    match n with
    | Full n' => Some (RFNode.id n')
    | PositionOnly _ => None
    end.

  (** [n.data?.text] *)
Definition text (n : t) : option jsstring :=
    match n with
    | Full n' => Some (NodeData.text (RFNode.data n'))
    | PositionOnly _ => None
    end.

Definition position (n : t) : XYPosition.t :=
    match n with
    | Full n' => RFNode.position n'
    | PositionOnly p => p
    end.
End NodeObj.

(** ** React Flow edges *)

Inductive MarkerType := Arrow | ArrowClosed.

Module EdgeMarker.
Record t := mk { type : MarkerType; color : jsstring }.
End EdgeMarker.

Module LabelBgStyle.
Record t := mk { fill : jsstring; stroke : jsstring; fillOpacity : number }.
End LabelBgStyle.

Module Edge.
Record t := mk {
    id : jsstring;
    source : jsstring;
    target : jsstring;
    label : option jsstring;
    type : jsstring;
    animated : bool;
    markerEnd : EdgeMarker.t;
    style_stroke : jsstring;
    labelBgStyle : LabelBgStyle.t;
    labelStyle_fill : jsstring
  }.
End Edge.

(** ** Configuration constants of [App.tsx] *)

Definition NODE_WIDTH : number := 180%float.
Definition NODE_HEIGHT : number := 60%float.
Definition COLOR_PRIMARY : jsstring := lit "#2c3e50".
Definition COLOR_SECONDARY : jsstring := lit "#34495e".
Definition COLOR_ACTION : jsstring := lit "#f39c12".
Definition COLOR_DECISION : jsstring := lit "#ecf0f1".
Definition COLOR_DECISION_BORDER : jsstring := lit "#bdc3c7".

(** [arr.map((x, i) => f(x, i))] *)
Fixpoint mapi_from {A B : Type} (i : nat) (f : A -> nat -> B) (l : list A)
  : list B :=
  match l with
  | [] => []
  | a :: l' => f a i :: mapi_from (S i) f l'
  end.

Definition mapi {A B : Type} (f : A -> nat -> B) (l : list A) : list B :=
  mapi_from 0 f l.

(** [l'] is [l] with exactly the elements satisfying [P] taken out, the
    others kept as they are and in their order. *)
Inductive RemoveAll {A : Type} (P : A -> Prop) : list A -> list A -> Prop :=
| RemoveAll_nil : RemoveAll P [] []
| RemoveAll_drop x l l' : P x -> RemoveAll P l l' -> RemoveAll P (x :: l) l'
| RemoveAll_keep x l l' :
    ~ P x -> RemoveAll P l l' -> RemoveAll P (x :: l) (x :: l').

(* ===================================================================== *)
(** * [processText]: mapping the response to React Flow elements *)
(* ===================================================================== *)

(** Lines 125-157: [data.nodes.map((node) => ...)]. *)
Definition reactFlowNode (node : FlowNode.t) : RFNode.t :=
  let isAction :=
    match FlowNode.type node with
    | Some ty => JsString.eqb ty (lit "action")
    | None => false
    end && truthy_opt (FlowNode.actor node) in
  let labelText := FlowNode.label node in
  RFNode.mk
    (FlowNode.id node)
    (lit "default")
    (NodeData.mk
       (CustomNodeContent.mk labelText (FlowNode.actor node) isAction)
       labelText
       (FlowNode.actor node)
       (Some isAction)
       (FlowNode.sourceSpan node))
    (XYPosition.mk 0%float 0%float)
    (NodeStyle.mk
       (if isAction then COLOR_ACTION else COLOR_DECISION)
       (if isAction then COLOR_ACTION else COLOR_DECISION_BORDER)
       (if isAction then lit "#ffffff" else COLOR_PRIMARY)
       8%float NODE_WIDTH (lit "center") 0%float).

Definition reactFlowNodes (data : FlowData.t) : list RFNode.t :=
  List.map reactFlowNode (FlowData.nodes data).

(** Lines 159-174: [data.edges.map((edge, i) => ...)]. *)
Definition reactFlowEdge (edge : FlowEdge.t) (i : nat) : Edge.t :=
  Edge.mk
    (lit "e-" ++ FlowEdge.from edge ++ lit "-" ++ FlowEdge.to edge
       ++ lit "-" ++ of_index i)
    (FlowEdge.from edge)
    (FlowEdge.to edge)
    (FlowEdge.label edge)
    (lit "smoothstep")
    true
    (EdgeMarker.mk ArrowClosed COLOR_SECONDARY)
    COLOR_SECONDARY
    (LabelBgStyle.mk (lit "#fff") COLOR_DECISION_BORDER 0.7%float)
    COLOR_PRIMARY.

Definition reactFlowEdges (data : FlowData.t) : list Edge.t :=
  mapi reactFlowEdge (FlowData.edges data).

(* ===================================================================== *)
(** * Effects: component state, exceptions, [try / catch / finally] *)
(* ===================================================================== *)

Module Eff.

(** Values that reach a [catch] clause. *)
Inductive Exn :=
| HttpError (status : Z)     (* throw new Error(`HTTP ${response.status}`) *)
| FetchFailed                (* fetch() rejected *)
| JsonFailed.                (* response.json() rejected, or the payload
                                lacks the arrays the code maps over *)

Inductive Outcome (A : Type) :=
| Done (a : A)
| Thrown (e : Exn).
Arguments Done {A} a.
Arguments Thrown {A} e.

(** A computation over a world [W]; the world survives an exception.  A
    callback is run to its end against one answer of each collaborator: the
    points where it awaits are not places where other callbacks interleave. *)
Definition M (W A : Type) := W -> Outcome A * W.

Definition ret {W A} (a : A) : M W A := fun w => (Done a, w).

Definition bind {W A B} (c : M W A) (k : A -> M W B) : M W B :=
  fun w =>
    match c w with
    | (Done a, w') => k a w'
    | (Thrown e, w') => (Thrown e, w')
    end.

Definition throw {W A} (e : Exn) : M W A := fun w => (Thrown e, w).

Definition get {W} : M W W := fun w => (Done w, w).

Definition modify {W} (f : W -> W) : M W unit := fun w => (Done tt, f w).

(** [try { body } catch (e) { handler(e) } finally { fin }] *)
Definition try_catch_finally {W A}
  (body : M W A) (handler : Exn -> M W A) (fin : M W unit) : M W A :=
  fun w =>
    let (r, w1) :=
      match body w with
      | (Done a, w') => (Done a, w')
      | (Thrown e, w') => handler e w'
      end in
    match fin w1 with
    | (Done _, w2) => (r, w2)
    | (Thrown e, w2) => (Thrown e, w2)
    end.

(** The world after running a computation. *)
Definition exec {W A} (c : M W A) (w : W) : W := snd (c w).

End Eff.

Declare Scope eff_scope.
Delimit Scope eff_scope with eff.
Notation "x <- c ;; k" := (Eff.bind c (fun x => k))
  (at level 61, c at next level, right associativity) : eff_scope.
Notation "c ;; k" := (Eff.bind c (fun _ => k))
  (at level 61, right associativity) : eff_scope.

(* ===================================================================== *)
(** * HTTP, as seen through [fetch] *)
(* ===================================================================== *)

Module Http.

(** The request body of [processText]: [JSON.stringify({ text, model })]. *)
Record ProcessTextBody := mkBody { body_text : jsstring; body_model : jsstring }.

Record Request := mkRequest {
  url : jsstring;
  method : jsstring;
  headers : list (jsstring * jsstring);
  body : option ProcessTextBody
}.

(** A response whose body, read with [response.json()], is a [P]
    ([None]: the body cannot be read as one). *)
Record Response (P : Type) := mkResponse {
  status : Z;
  json : option P
}.
Arguments mkResponse {P} status json.
Arguments status {P} r.
Arguments json {P} r.

(** [response.ok]: the status is in the range 200-299. *)
Definition ok {P} (r : Response P) : bool :=
  ((200 <=? status r) && (status r <=? 299))%Z.

Inductive FetchResult (P : Type) :=
| Rejected                       (* network failure *)
| Responded (r : Response P).
Arguments Rejected {P}.
Arguments Responded {P} r.

End Http.

(* ===================================================================== *)
(** * ELK, as seen through [elk.layout] *)
(* ===================================================================== *)

Module Elk.

(** [{ ...node, width: NODE_WIDTH, height: NODE_HEIGHT }] *)
Record ChildIn := mkChildIn {
  node : RFNode.t;
  width : number;
  height : number
}.

Record EdgeIn := mkEdgeIn {
  edge_id : jsstring;
  sources : list jsstring;
  targets : list jsstring
}.

Record Graph := mkGraph {
  graph_id : jsstring;
  layoutOptions : list (jsstring * jsstring);
  children : list ChildIn;
  edges : list EdgeIn
}.

(** What the code reads of a laid-out child: [node.id], [node.x], [node.y]. *)
Record ChildOut := mkChildOut {
  child_id : jsstring;
  x : number;
  y : number
}.

(** [layoutedGraph.children] may be absent. *)
Record Layouted := mkLayouted { out_children : option (list ChildOut) }.

Inductive Outcome :=
| Throws
| Returns (g : Layouted).

End Elk.

Module LayoutResult.
Record t := mk { nodes : list NodeObj.t; edges : list Edge.t }.
End LayoutResult.

(** [{ ...found, position }] where [found] comes from [Array.prototype.find]. *)
Definition spread_position (found : option RFNode.t) (p : XYPosition.t)
  : NodeObj.t :=
  match found with
  | Some n => NodeObj.Full (RFNode.with_position n p)
  | None => NodeObj.PositionOnly p
  end.

Definition elk_layoutOptions : list (jsstring * jsstring) :=
  [ (lit "elk.algorithm", lit "layered");
    (lit "elk.direction", lit "DOWN");
    (lit "elk.spacing.nodeNode", lit "80");
    (lit "elk.layered.spacing.nodeNodeBetweenLayers", lit "100");
    (lit "elk.edgeRouting", lit "ORTHOGONAL") ].

(** The graph handed to ELK (lines 45-64). *)
Definition elk_graph (nodes : list RFNode.t) (edges : list Edge.t) : Elk.Graph :=
  Elk.mkGraph
    (lit "root")
    elk_layoutOptions
    (List.map (fun node => Elk.mkChildIn node NODE_WIDTH NODE_HEIGHT) nodes)
    (List.map (fun edge =>
                 Elk.mkEdgeIn (Edge.id edge) [Edge.source edge] [Edge.target edge])
              edges).

(** Lines 44-78. *)
Definition getLayoutedElements (elk_layout : Elk.Graph -> Elk.Outcome)
  (nodes : list RFNode.t) (edges : list Edge.t) : LayoutResult.t :=
  let graph := elk_graph nodes edges in
  match elk_layout graph with
  | Elk.Returns layoutedGraph =>
      let children :=
        match Elk.out_children layoutedGraph with
        | Some c => c
        | None => []
        end in
      LayoutResult.mk
        (List.map
           (fun node =>
              spread_position
                (List.find (fun n => JsString.eqb (RFNode.id n) (Elk.child_id node))
                           nodes)
                (XYPosition.mk (Elk.x node) (Elk.y node)))
           children)
        edges
  | Elk.Throws => LayoutResult.mk (List.map NodeObj.Full nodes) edges
  end.

(** What the caller expects of [elk.layout]: the children of the laid-out
    graph are children of the graph it was given, identified by [id]. *)
Definition elk_keeps_ids (elk_layout : Elk.Graph -> Elk.Outcome)
  (nodes : list RFNode.t) (edges : list Edge.t) : Prop :=
  forall g cs c,
    elk_layout (elk_graph nodes edges) = Elk.Returns g ->
    Elk.out_children g = Some cs ->
    In c cs ->
    exists n, In n nodes /\ RFNode.id n = Elk.child_id c.

(* ===================================================================== *)
(** * [App]: component state and callbacks *)
(* ===================================================================== *)

Module App.

Inductive MenuTarget := TargetNode | TargetEdge.

Record ContextMenu := mkMenu {
  menu_x : number;
  menu_y : number;
  target : MenuTarget;
  menu_id : jsstring
}.

(** The [useState] / [useNodesState] / [useEdgesState] cells of [App]. *)
Record State := mkState {
  nodes : list NodeObj.t;
  edges : list Edge.t;
  text : jsstring;
  error : option UiText;
  isLoading : bool;
  selectedNodeId : option jsstring;
  isEditMode : bool;
  selectedModel : jsstring;
  contextMenu : option ContextMenu
}.

Definition setNodes (f : list NodeObj.t -> list NodeObj.t) (s : State) : State :=
  mkState (f (nodes s)) (edges s) (text s) (error s) (isLoading s)
          (selectedNodeId s) (isEditMode s) (selectedModel s) (contextMenu s).

Definition setEdges (f : list Edge.t -> list Edge.t) (s : State) : State :=
  mkState (nodes s) (f (edges s)) (text s) (error s) (isLoading s)
          (selectedNodeId s) (isEditMode s) (selectedModel s) (contextMenu s).

Definition setError (e : option UiText) (s : State) : State :=
  mkState (nodes s) (edges s) (text s) e (isLoading s)
          (selectedNodeId s) (isEditMode s) (selectedModel s) (contextMenu s).

Definition setIsLoading (b : bool) (s : State) : State :=
  mkState (nodes s) (edges s) (text s) (error s) b
          (selectedNodeId s) (isEditMode s) (selectedModel s) (contextMenu s).

Definition setContextMenu (m : option ContextMenu) (s : State) : State :=
  mkState (nodes s) (edges s) (text s) (error s) (isLoading s)
          (selectedNodeId s) (isEditMode s) (selectedModel s) m.

(** The component state together with the requests sent so far. *)
Record World := mkWorld {
  state : State;
  sent : list Http.Request
}.

Definition update (f : State -> State) : Eff.M World unit :=
  Eff.modify (fun w => mkWorld (f (state w)) (sent w)).

Definition MSG_ENTER_TEXT : UiText :=
  "Введите описание процесса для построения схемы"%string.
Definition MSG_SELECT_MODEL : UiText :=
  "Выберите модель для обработки текста"%string.
Definition MSG_BACKEND : UiText :=
  "Не удалось получить или обработать схему. Убедитесь, что бэкенд-сервер запущен."%string.

Section Callbacks.

(** [import.meta.env.VITE_API_URL || "http://127.0.0.1:8000"] *)
Variable API_URL : jsstring.
(** The backend behind [POST /process-text]. *)
Variable backend : Http.Request -> Http.FetchResult FlowData.t.
(** [elk.layout] *)
Variable elk_layout : Elk.Graph -> Elk.Outcome.

(** [await fetch(url, init)]: the request is sent; a network failure rejects. *)
Definition fetch (req : Http.Request) : Eff.M World (Http.Response FlowData.t) :=
  fun w =>
    let w' := mkWorld (state w) (sent w ++ [req]) in
    match backend req with
    | Http.Rejected => (Eff.Thrown Eff.FetchFailed, w')
    | Http.Responded r => (Eff.Done r, w')
    end.

(** [await response.json()] *)
Definition response_json (r : Http.Response FlowData.t) : Eff.M World FlowData.t :=
  match Http.json r with
  | Some data => Eff.ret data
  | None => Eff.throw Eff.JsonFailed
  end.

Definition process_text_request (text selectedModel : jsstring) : Http.Request :=
  Http.mkRequest
    (API_URL ++ lit "/process-text")
    (lit "POST")
    [(lit "Content-Type", lit "application/json")]
    (Some (Http.mkBody text selectedModel)).

Local Open Scope eff_scope.

(** Lines 104-196. *)
Definition processText : Eff.M World unit :=
  w <- Eff.get ;;
  let text := text (state w) in
  let selectedModel := selectedModel (state w) in
  let trimmedText := trim text in
  if negb (truthy trimmedText) then
    update (setError (Some MSG_ENTER_TEXT))
  else if negb (truthy selectedModel) then
    update (setError (Some MSG_SELECT_MODEL))
  else
    update (setIsLoading true) ;;
    update (setError None) ;;
    Eff.try_catch_finally
      (response <- fetch (process_text_request text selectedModel) ;;
       if negb (Http.ok response) then
         Eff.throw (Eff.HttpError (Http.status response))
       else
         data <- response_json response ;;
         let reactFlowNodes := reactFlowNodes data in
         let reactFlowEdges := reactFlowEdges data in
         let layoutResult :=
           getLayoutedElements elk_layout reactFlowNodes reactFlowEdges in
         if (0 <? List.length (LayoutResult.nodes layoutResult))%nat then
           update (setNodes (fun _ => LayoutResult.nodes layoutResult)) ;;
           update (setEdges (fun _ => LayoutResult.edges layoutResult))
         else
           update (setNodes (fun _ => List.map NodeObj.Full reactFlowNodes)) ;;
           update (setEdges (fun _ => reactFlowEdges)))
      (fun e => update (setError (Some MSG_BACKEND)))
      (update (setIsLoading false)).

End Callbacks.

(** [n.id !== id] on a node object whose [id] may be missing. *)
Definition node_id_is (id : jsstring) (n : NodeObj.t) : bool :=
  match NodeObj.id n with
  | Some i => JsString.eqb i id
  | None => false
  end.

(** Lines 280-292. *)
Definition handleDeleteFromContext (s : State) : State :=
  match contextMenu s with
  | None => s
  | Some menu =>
      if negb (isEditMode s) then s
      else
        let id := menu_id menu in
        let s' :=
          match target menu with
          | TargetNode =>
              setEdges
                (fun eds =>
                   List.filter
                     (fun e => negb (JsString.eqb (Edge.source e) id)
                               && negb (JsString.eqb (Edge.target e) id))
                     eds)
                (setNodes
                   (fun nds => List.filter (fun n => negb (node_id_is id n)) nds)
                   s)
          | TargetEdge =>
              setEdges
                (fun eds =>
                   List.filter (fun e => negb (JsString.eqb (Edge.id e) id)) eds)
                s
          end in
        setContextMenu None s'
  end.

End App.

(* ===================================================================== *)
(** * [findHighlightRange] and the highlight overlay *)
(* ===================================================================== *)

Module Fuse.

Record Options := mkOptions {
  keys : list jsstring;
  includeScore : bool;
  threshold : number;
  ignoreLocation : bool;
  minMatchCharLength : number
}.

(** One search hit: a reference to an element of the searched collection,
    its index there, and its score. *)
Record Result (A : Type) := mkResult {
  item : A;
  refIndex : nat;
  score : number
}.
Arguments mkResult {A} item refIndex score.
Arguments item {A} r.
Arguments refIndex {A} r.
Arguments score {A} r.

(** The contract of [fuse.search] that the caller relies on: every hit is an
    element of the collection that was searched. *)
Definition returns_items {A} (search : Options -> list A -> jsstring -> list (Result A))
  : Prop :=
  forall opts coll pattern r,
    In r (search opts coll pattern) -> In (item r) coll.

End Fuse.

Module Highlight.

Record Sentence := mkSentence {
  text : jsstring;
  startPos : Z;
  endPos : Z
}.

Definition fuse_options : Fuse.Options :=
  Fuse.mkOptions [lit "text"] true 0.8%float true 2%float.

(** [x || 1] on a number: zero and NaN are falsy. *)
Definition or_one (x : number) : number :=
  if (PrimFloat.eqb x 0%float || negb (PrimFloat.eqb x x))%bool
  then 1%float else x.

(** [1 - (score || 1) > 0.2] *)
Definition confident (score : number) : bool :=
  PrimFloat.ltb 0.2%float (PrimFloat.sub 1%float (or_one score)).

(** Lines 310-321: the sentences of [fullText] with their positions. *)
Definition sentences_of (fullText : jsstring) : list Sentence :=
  List.map
    (fun sentence =>
       let trimmed := trim sentence in
       let startPos := indexOf fullText trimmed in
       mkSentence trimmed startPos (startPos + JsString.length trimmed)%Z)
    (List.filter
       (fun s => (0 <? JsString.length (trim s))%Z)
       (split_sentences fullText)).

Section WithFuse.

(** [new Fuse(collection, options).search(pattern)] *)
Variable fuse_search :
  Fuse.Options -> list Sentence -> jsstring -> list (Fuse.Result Sentence).

(** Lines 303-342 of [App.tsx]. *)
Definition findHighlightRange (fullText : jsstring) (nodeText : option jsstring)
  : option (Z * Z) :=
  match nodeText with
  | None => None
  | Some nodeText' =>
      if negb (truthy (trim nodeText')) then None
      else
        let sentences := sentences_of fullText in
        if (List.length sentences =? 0)%nat then None
        else
          let results := fuse_search fuse_options sentences (trim nodeText') in
          match results with
          | r0 :: _ =>
              if confident (Fuse.score r0)
              then Some (startPos (Fuse.item r0), endPos (Fuse.item r0))
              else None
          | [] => None
          end
  end.

(** The pieces rendered by [TextEditor]: [before], [highlighted], [after]. *)
Record Overlay := mkOverlay {
  before : jsstring;
  highlighted : jsstring;
  after : jsstring
}.

(** Lines 109-143 of [TextEditor.tsx]. *)
Definition highlightOverlay (text : jsstring) (nodes : list NodeObj.t)
  (selectedNodeId : option jsstring) : option Overlay :=
  match selectedNodeId with
  | None => None
  | Some sid =>
      if negb (truthy sid) then None
      else
        let selectedNode := List.find (App.node_id_is sid) nodes in
        let nodeText :=
          match selectedNode with
          | Some n => NodeObj.text n
          | None => None
          end in
        match findHighlightRange text nodeText with
        | Some (start, end_) =>
            Some (mkOverlay (substring text 0 start)
                            (substring text start end_)
                            (substring_from text end_))
        | None => None
        end
  end.

End WithFuse.

End Highlight.

(* ===================================================================== *)
(** * [ModelSelector] *)
(* ===================================================================== *)

Module ModelSelector.

Record Model := mkModel {
  id : jsstring;
  name : jsstring;
  description : jsstring
}.

(** The payload of [GET /models], an object read by [response.json()]:
    [data.models] is the model list, or [undefined] ([None]) when the object
    has no such field. *)
Record ModelsData := mkData { data_models : option (list Model) }.

(** [models] holds what [setModels] was last given: a list, or [undefined]
    ([None]) after a payload without the field. *)
Record State := mkState {
  models : option (list Model);
  loadingModels : bool;
  error : option UiText
}.

(** The state on mount. *)
Definition initial : State := mkState (Some []) true None.

(** Component state, requests sent, and the calls made to the
    [onModelChange] prop, oldest first. *)
Record World := mkWorld {
  state : State;
  sent : list Http.Request;
  modelChanges : list jsstring
}.

Definition mounted : World := mkWorld initial [] [].

Definition update (f : State -> State) : Eff.M World unit :=
  Eff.modify (fun w => mkWorld (f (state w)) (sent w) (modelChanges w)).

Definition setModels (m : option (list Model)) (s : State) : State :=
  mkState m (loadingModels s) (error s).
Definition setError (e : option UiText) (s : State) : State :=
  mkState (models s) (loadingModels s) e.
Definition setLoadingModels (b : bool) (s : State) : State :=
  mkState (models s) b (error s).

Definition onModelChange (modelId : jsstring) : Eff.M World unit :=
  Eff.modify (fun w => mkWorld (state w) (sent w) (modelChanges w ++ [modelId])).

Definition MSG_MODELS : UiText := "Не удалось загрузить список моделей"%string.

Section Effect.

Variable API_URL : jsstring.
(** The backend behind [GET /models]. *)
Variable backend : Http.Request -> Http.FetchResult ModelsData.
(** The [selectedModel] prop. *)
Variable selectedModel : jsstring.

Definition models_request : Http.Request :=
  Http.mkRequest (API_URL ++ lit "/models") (lit "GET") [] None.

Definition fetch (req : Http.Request) : Eff.M World (Http.Response ModelsData) :=
  fun w =>
    let w' := mkWorld (state w) (sent w ++ [req]) (modelChanges w) in
    match backend req with
    | Http.Rejected => (Eff.Thrown Eff.FetchFailed, w')
    | Http.Responded r => (Eff.Done r, w')
    end.

(** [await response.json()]; [None]: the body is not JSON text, or is
    [null], and the call (or the read of [data.models] that follows it)
    throws before any state is set. *)
Definition response_json (r : Http.Response ModelsData) : Eff.M World ModelsData :=
  match Http.json r with
  | Some data => Eff.ret data
  | None => Eff.throw Eff.JsonFailed
  end.

Local Open Scope eff_scope.

(** Lines 32-52.  In [!selectedModel && data.models.length > 0] the length
    is read only when no model is selected; read on [undefined], it throws
    after [setModels] and [setError] have run. *)
Definition fetchModels : Eff.M World unit :=
  Eff.try_catch_finally
    (response <- fetch models_request ;;
     if negb (Http.ok response) then
       Eff.throw (Eff.HttpError (Http.status response))
     else
       data <- response_json response ;;
       update (setModels (data_models data)) ;;
       update (setError None) ;;
       if negb (truthy selectedModel) then
         match data_models data with
         | None => Eff.throw Eff.JsonFailed
         | Some ms =>
             if (0 <? List.length ms)%nat then
               match ms with
               | first :: _ => onModelChange (id first)
               | [] => Eff.ret tt
               end
             else Eff.ret tt
         end
       else Eff.ret tt)
    (fun e => update (setError (Some MSG_MODELS)))
    (update (setLoadingModels false)).

End Effect.

(** What the component renders (lines 57-106 and below); [RenderThrows]
    when rendering itself throws. *)
Inductive View :=
| LoadingView
| ErrorView (message : UiText)
| DropdownView (models : list Model) (selectedModelData : option Model)
| RenderThrows.

(** [if (error)] on a value of type [string | null]. *)
Definition error_shown (e : option UiText) : option UiText :=
  match e with
  | Some EmptyString => None
  | Some m => Some m
  | None => None
  end.

(** Line 57 evaluates [models.find(..)] before anything else, which throws
    when [models] is [undefined]. *)
Definition render (selectedModel : jsstring) (s : State) : View :=
  match models s with
  | None => RenderThrows
  | Some ms =>
      let selectedModelData :=
        List.find (fun m => JsString.eqb (id m) selectedModel) ms in
      if loadingModels s then LoadingView
      else match error_shown (error s) with
           | Some m => ErrorView m
           | None => DropdownView ms selectedModelData
           end
  end.

End ModelSelector.

(* ===================================================================== *)
(** * [ExportPanel]: the BPMN, JSON and Mermaid serializers *)
(* ===================================================================== *)

(** The [nodes] and [edges] props are taken at their declared types.  On
    such values building the text cannot throw, so the [catch] clauses of
    the exporters are never entered; an exporter answers [None] when it
    returns early on an empty node list, and the file it offers for
    download otherwise. *)

Module ExportPanel.

(** The file handed to the browser: [link.download], the blob's type, and
    the blob's content. *)
Record Download (C : Type) := mkDownload {
  download : jsstring;
  blob_type : jsstring;
  content : C
}.
Arguments mkDownload {C} download blob_type content.
Arguments download {C} d.
Arguments blob_type {C} d.
Arguments content {C} d.

(** [nodeData.isAction ? a : b] on a value of type [boolean | undefined]. *)
Definition isAction (node : RFNode.t) : bool :=
  match NodeData.isAction (RFNode.data node) with
  | Some b => b
  | None => false
  end.

Definition dquote : jsstring := [34%N].

(** An ASCII piece of a template literal, written with ['] where the source
    has a double quote. *)
Definition tpl (s : string) : jsstring :=
  List.map (fun c => if (c =? 39)%N then 34%N else c) (lit s).

(** ** JSON *)

Module ExportNode.
Record t := mk {
  id : jsstring;
  label : jsstring;
  actor : option jsstring;
  type : jsstring;
  position : XYPosition.t
}.
End ExportNode.

Module ExportEdge.
Record t := mk {
  id : jsstring;
  from : jsstring;
  to : jsstring;
  label : option jsstring
}.
End ExportEdge.

(** The object [exportData]; the blob holds [JSON.stringify(exportData, null, 2)]. *)
Module ExportData.
Record t := mk { nodes : list ExportNode.t; edges : list ExportEdge.t }.
End ExportData.

Definition export_node (node : RFNode.t) : ExportNode.t :=
  ExportNode.mk
    (RFNode.id node)
    (NodeData.text (RFNode.data node))
    (NodeData.actor (RFNode.data node))
    (if isAction node then lit "action" else lit "decision")
    (RFNode.position node).

Definition export_edge (edge : Edge.t) : ExportEdge.t :=
  ExportEdge.mk (Edge.id edge) (Edge.source edge) (Edge.target edge)
                (Edge.label edge).

(** Lines 184-217. *)
Definition exportToJson (nodes : list RFNode.t) (edges : list Edge.t)
  : option (Download ExportData.t) :=
  if (List.length nodes =? 0)%nat then None
  else
    let exportData :=
      ExportData.mk (List.map export_node nodes) (List.map export_edge edges) in
    Some (mkDownload (lit "process-schema.json") (lit "application/json")
                     exportData).

(** ** Mermaid *)

(** Lines 219-249: [mermaidText] is grown by the two [forEach] loops. *)
Definition exportToMermaid (nodes : list RFNode.t) (edges : list Edge.t)
  : option (Download jsstring) :=
  if (List.length nodes =? 0)%nat then None
  else
    let mermaidText := lit "graph TD" ++ newline in
    let mermaidText :=
      fold_left
        (fun mermaidText node =>
           let nodeData := RFNode.data node in
           let shape := if isAction node then lit "[]" else lit "{}" in
           let leftBracket := firstn 1 shape in
           let rightBracket := firstn 1 (skipn 1 shape) in
           mermaidText
             ++ (lit "    " ++ RFNode.id node ++ leftBracket ++ dquote
                   ++ NodeData.text nodeData ++ dquote ++ rightBracket
                   ++ newline))
        nodes mermaidText in
    let mermaidText :=
      fold_left
        (fun mermaidText edge =>
           let label :=
             if truthy_opt (Edge.label edge)
             then lit "|" ++ dquote
                    ++ match Edge.label edge with Some l => l | None => [] end
                    ++ dquote
             else lit "" in
           mermaidText
             ++ (lit "    " ++ Edge.source edge ++ lit " -->" ++ label ++ lit " "
                   ++ Edge.target edge ++ newline))
        edges mermaidText in
    Some (mkDownload (lit "process-schema.mmd") (lit "text/plain") mermaidText).

(** ** BPMN *)

(** The XML declaration and the opening tag of [bpmn:definitions]
    (lines 128-134). *)
Definition bpmn_prolog : jsstring :=
  tpl "<?xml version='1.0' encoding='UTF-8'?>" ++ newline
  ++ tpl "<bpmn:definitions xmlns:bpmn='http://www.omg.org/spec/BPMN/20100524/MODEL'" ++ newline
  ++ tpl "                  xmlns:bpmndi='http://www.omg.org/spec/BPMN/20100524/DI'" ++ newline
  ++ tpl "                  xmlns:di='http://www.omg.org/spec/DD/20100524/DI'" ++ newline
  ++ tpl "                  xmlns:dc='http://www.omg.org/spec/DD/20100524/DC'" ++ newline
  ++ tpl "                  id='Definitions_1'" ++ newline
  ++ tpl "                  targetNamespace='http://bpmn.io/schema/bpmn'>" ++ newline.

(** The fixed text of the template literal before the first interpolation
    (lines 128-135). *)
Definition bpmn_head : jsstring :=
  bpmn_prolog
  ++ tpl "  <bpmn:process id='Process_1' isExecutable='true'>" ++ newline.

(** The fixed text between the second and the third interpolation
    (lines 148-152). *)
Definition bpmn_middle : jsstring :=
  newline
  ++ tpl "  </bpmn:process>" ++ newline
  ++ tpl "  <bpmndi:BPMNDiagram id='BPMNDiagram_1'>" ++ newline
  ++ tpl "    <bpmndi:BPMNPlane id='BPMNPlane_1' bpmnElement='Process_1'>" ++ newline.

(** The fixed text after the last interpolation (lines 166-169). *)
Definition bpmn_tail : jsstring :=
  newline
  ++ tpl "    </bpmndi:BPMNPlane>" ++ newline
  ++ tpl "  </bpmndi:BPMNDiagram>" ++ newline
  ++ tpl "</bpmn:definitions>".

Section Bpmn.

(** Template-literal conversion of a number ([Number::toString]). *)
Variable number_to_string : number -> jsstring.

(** Lines 124-182. *)
Definition exportToBpmn (nodes : list RFNode.t) (edges : list Edge.t)
  : option (Download jsstring) :=
  if (List.length nodes =? 0)%nat then None
  else
    let bpmnXml :=
      bpmn_head
      ++ join newline
           (List.map
              (fun node =>
                 let nodeData := RFNode.data node in
                 let taskType :=
                   if isAction node then lit "bpmn:task"
                   else lit "bpmn:exclusiveGateway" in
                 tpl "    <" ++ taskType ++ tpl " id='" ++ RFNode.id node
                   ++ tpl "' name='" ++ NodeData.text nodeData ++ tpl "' />")
              nodes)
      ++ newline
      ++ join newline
           (List.map
              (fun edge =>
                 tpl "    <bpmn:sequenceFlow id='" ++ Edge.id edge
                   ++ tpl "' sourceRef='" ++ Edge.source edge
                   ++ tpl "' targetRef='" ++ Edge.target edge ++ tpl "' />")
              edges)
      ++ bpmn_middle
      ++ join newline
           (List.map
              (fun node =>
                 tpl "      <bpmndi:BPMNShape id='" ++ RFNode.id node
                   ++ tpl "_di' bpmnElement='" ++ RFNode.id node ++ tpl "'>"
                   ++ newline
                   ++ tpl "        <dc:Bounds x='"
                   ++ number_to_string (XYPosition.x (RFNode.position node))
                   ++ tpl "' y='"
                   ++ number_to_string (XYPosition.y (RFNode.position node))
                   ++ tpl "' width='100' height='80' />" ++ newline
                   ++ tpl "      </bpmndi:BPMNShape>")
              nodes)
      ++ newline
      ++ join newline
           (List.map
              (fun edge =>
                 tpl "      <bpmndi:BPMNEdge id='" ++ Edge.id edge
                   ++ tpl "_di' bpmnElement='" ++ Edge.id edge ++ tpl "'>"
                   ++ newline
                   ++ tpl "        <di:waypoint x='150' y='150' />" ++ newline
                   ++ tpl "        <di:waypoint x='250' y='150' />" ++ newline
                   ++ tpl "      </bpmndi:BPMNEdge>")
              edges)
      ++ bpmn_tail in
    Some (mkDownload (lit "process-schema.bpmn") (lit "application/xml") bpmnXml).

End Bpmn.

End ExportPanel.

(* ===================================================================== *)
(** * [App]: the remaining event handlers *)
(* ===================================================================== *)

Module AppHandlers.

Import App.

Definition setSelectedNodeId (id : option jsstring) (s : State) : State :=
  mkState (nodes s) (edges s) (text s) (error s) (isLoading s)
          id (isEditMode s) (selectedModel s) (contextMenu s).

Definition setIsEditMode (b : bool) (s : State) : State :=
  mkState (nodes s) (edges s) (text s) (error s) (isLoading s)
          (selectedNodeId s) b (selectedModel s) (contextMenu s).

Definition setSelectedModel (m : jsstring) (s : State) : State :=
  mkState (nodes s) (edges s) (text s) (error s) (isLoading s)
          (selectedNodeId s) (isEditMode s) m (contextMenu s).

Definition setText (t : jsstring) (s : State) : State :=
  mkState (nodes s) (edges s) t (error s) (isLoading s)
          (selectedNodeId s) (isEditMode s) (selectedModel s) (contextMenu s).

(** Lines 100-102: the callback itself.  The effect that restyles every
    node once the selection has changed (lines 204-218) is not part of
    it. *)
Definition onNodeClick (id : jsstring) (s : State) : State :=
  setSelectedNodeId (Some id) s.

(** Lines 223-234; [x], [y] are [event.clientX], [event.clientY]. *)
Definition onNodeContextMenu (x y : number) (id : jsstring) (s : State) : State :=
  setContextMenu (Some (mkMenu x y TargetNode id)) s.

(** Lines 236-247. *)
Definition onEdgeContextMenu (x y : number) (id : jsstring) (s : State) : State :=
  setContextMenu (Some (mkMenu x y TargetEdge id)) s.

(** Line 249. *)
Definition closeContextMenu (s : State) : State := setContextMenu None s.

(** Lines 296-298: the [keydown] listener. *)
Definition onKeyDown (key : jsstring) (s : State) : State :=
  if JsString.eqb key (lit "Escape") then setContextMenu None s else s.

(** Lines 378-381: the [onModelChange] prop handed to [ModelSelector]. *)
Definition onModelChange (modelId : jsstring) (s : State) : State :=
  setError None (setSelectedModel modelId s).

Definition MSG_PROMPT : UiText := "Введите новое название узла"%string.

(** Lines 262-273: the node with its text replaced and its label rebuilt. *)
Definition renamed (n : RFNode.t) (next : jsstring) : RFNode.t :=
  let nd := RFNode.data n in
  let updatedData :=
    NodeData.mk
      (CustomNodeContent.mk next (NodeData.actor nd)
         (match NodeData.isAction nd with Some b => b | None => false end))
      next
      (NodeData.actor nd)
      (NodeData.isAction nd)
      (NodeData.sourceSpan nd) in
  RFNode.mk (RFNode.id n) (RFNode.type n) updatedData (RFNode.position n)
            (RFNode.style n).

(** Lines 251-278.  [prompt message value] is [window.prompt]: the text the
    user enters, or [None] when the dialog is dismissed. *)
Definition handleEditFromContext
  (prompt : UiText -> jsstring -> option jsstring) (s : State) : State :=
  match contextMenu s with
  | None => s
  | Some menu =>
      match target menu with
      | TargetEdge => s
      | TargetNode =>
          if negb (isEditMode s) then s
          else
            match List.find (node_id_is (menu_id menu)) (nodes s) with
            | None | Some (NodeObj.PositionOnly _) => s
            | Some (NodeObj.Full node) =>
                let current := NodeData.text (RFNode.data node) in
                let s' :=
                  match prompt MSG_PROMPT current with
                  | Some next =>
                      if negb (JsString.eqb next current) then
                        setNodes
                          (fun nds =>
                             List.map
                               (fun n =>
                                  match n with
                                  | NodeObj.Full n' =>
                                      if negb (JsString.eqb (RFNode.id n')
                                                            (menu_id menu))
                                      then n
                                      else NodeObj.Full (renamed n' next)
                                  | NodeObj.PositionOnly _ => n
                                  end)
                               nds)
                          s
                      else s
                  | None => s
                  end in
                setContextMenu None s'
            end
      end
  end.

End AppHandlers.

(* ===================================================================== *)
(** * [FlowDiagram] *)
(* ===================================================================== *)

Module FlowDiagram.

(** reactflow's [Connection]: each field is a string or [null]. *)
Record Connection := mkConnection {
  source : option jsstring;
  target : option jsstring;
  sourceHandle : option jsstring;
  targetHandle : option jsstring
}.

(** The edge built by [onConnect]: an edge together with the two handle
    fields that only this function sets. *)
Record HandledEdge := mkHandled {
  edge : Edge.t;
  edge_sourceHandle : option jsstring;
  edge_targetHandle : option jsstring
}.

(** reactflow's [EdgeChange], as far as it is built here. *)
Inductive EdgeChange :=
| AddEdge (item : HandledEdge).

Definition string_or_empty (o : option jsstring) : jsstring :=
  match o with Some s => s | None => [] end.

Section Connect.

(** Template-literal conversion of a number. *)
Variable number_to_string : number -> jsstring.

(** Lines 69-94.  [now] is [Date.now()].  The answer is the argument with
    which [onEdgesChange] is called, or [None] when it is not called. *)
Definition onConnect (isEditMode : bool) (now : number) (params : Connection)
  : option (list EdgeChange) :=
  if negb isEditMode || negb (truthy_opt (source params))
     || negb (truthy_opt (target params))
  then None
  else
    let newEdge :=
      mkHandled
        (Edge.mk
           (lit "e-" ++ string_or_empty (source params) ++ lit "-"
              ++ string_or_empty (target params) ++ lit "-"
              ++ number_to_string now)
           (string_or_empty (source params))
           (string_or_empty (target params))
           None
           (lit "smoothstep")
           true
           (EdgeMarker.mk ArrowClosed (lit "#34495e"))
           (lit "#34495e")
           (LabelBgStyle.mk (lit "#fff") (lit "#bdc3c7") 0.7%float)
           (lit "#2c3e50"))
        (sourceHandle params)
        (targetHandle params) in
    Some [AddEdge newEdge].

End Connect.

Inductive MenuItem := EditItem | DeleteItem.

(** Lines 140-167: the items of the context menu, or [None] when the menu is
    not rendered. *)
Definition contextMenuItems (contextMenu : option App.ContextMenu)
  (isEditMode : bool) : option (list MenuItem) :=
  match contextMenu with
  | Some menu =>
      if isEditMode then
        Some (match App.target menu with
              | App.TargetNode => [EditItem]
              | App.TargetEdge => []
              end ++ [DeleteItem])
      else None
  | None => None
  end.

(** The actions on the diagram through which it can be edited, and those
    that open or close the context menu.  The changes that reactflow itself
    computes (dragging, selecting, removing with the keyboard) and applies
    through [applyNodeChanges] / [applyEdgeChanges] are represented by the
    function they amount to.  A plain click on a node is not among these
    actions: it selects the node, after which the effect of lines 204-218
    of [App.tsx] gives every node a new [style.boxShadow] and
    [style.transition], in edit mode or not. *)
Inductive Event :=
| NodeContextMenu (x y : number) (id : jsstring)
| EdgeContextMenu (x y : number) (id : jsstring)
| PaneClick
| KeyDown (key : jsstring)
| EditItemClick (prompt : UiText -> jsstring -> option jsstring)
| DeleteItemClick
| ToggleEditMode
| NodesChange (apply : list NodeObj.t -> list NodeObj.t)
| EdgesChange (apply : list Edge.t -> list Edge.t)
| Connect (now : number) (params : Connection)
          (apply : list EdgeChange -> list Edge.t -> list Edge.t).

Definition is_toggle (e : Event) : bool :=
  match e with ToggleEditMode => true | _ => false end.

Definition displayed (item : MenuItem) (s : App.State) : bool :=
  match contextMenuItems (App.contextMenu s) (App.isEditMode s) with
  | Some items =>
      List.existsb
        (fun i => match i, item with
                  | EditItem, EditItem | DeleteItem, DeleteItem => true
                  | _, _ => false
                  end)
        items
  | None => false
  end.

Section Wiring.

Variable number_to_string : number -> jsstring.

(** The props of [<ReactFlow>] and of the menu items (lines 108-166),
    connected to the handlers of [App] (lines 409-423 of [App.tsx]). *)
Definition step (e : Event) (s : App.State) : App.State :=
  match e with
  | NodeContextMenu x y id =>
      if App.isEditMode s then AppHandlers.onNodeContextMenu x y id s else s
  | EdgeContextMenu x y id =>
      if App.isEditMode s then AppHandlers.onEdgeContextMenu x y id s else s
  | PaneClick => AppHandlers.closeContextMenu s
  | KeyDown key => AppHandlers.onKeyDown key s
  | EditItemClick prompt =>
      if displayed EditItem s then AppHandlers.handleEditFromContext prompt s
      else s
  | DeleteItemClick =>
      if displayed DeleteItem s then App.handleDeleteFromContext s else s
  | ToggleEditMode =>
      AppHandlers.setIsEditMode (negb (App.isEditMode s)) s
  | NodesChange apply =>
      if App.isEditMode s then App.setNodes apply s else s
  | EdgesChange apply =>
      if App.isEditMode s then App.setEdges apply s else s
  | Connect now params apply =>
      match onConnect number_to_string (App.isEditMode s) now params with
      | Some changes => App.setEdges (apply changes) s
      | None => s
      end
  end.

Definition run (events : list Event) (s : App.State) : App.State :=
  fold_left (fun st e => step e st) events s.

End Wiring.

End FlowDiagram.

(* ===================================================================== *)
(** * [TextEditor]: the build button *)
(* ===================================================================== *)

Module TextEditor.

(** Line 149: the [disabled] attribute of the build button. *)
Definition buildDisabled (isLoading : bool) (text : jsstring) : bool :=
  isLoading || negb (truthy (trim text)).

End TextEditor.

(* ===================================================================== *)
(** * [ExportPanel]: the PNG export and the format menu *)
(* ===================================================================== *)

Module ExportMenu.

Import ExportPanel.

(** What a download link points to. *)
Inductive Content :=
| TextContent (s : jsstring)            (* a blob built from one string *)
| JsonContent (d : ExportData.t)        (* JSON.stringify(d, null, 2) *)
| ImageContent (dataUrl : jsstring).    (* the data URL made by toPng *)

(** A file handed to the browser by [link.click()]. *)
Record File := mkFile {
  file_name : jsstring;
  file_content : Content
}.

(** The part of the page that [exportToPng] reads. *)
Record Dom := mkDom {
  wrapper : bool;              (* reactFlowWrapper.current is not null *)
  viewport : bool;             (* querySelector(".react-flow__viewport") finds an element *)
  toPng : option jsstring      (* the data URL, or None when toPng rejects *)
}.

(** [isExporting], the error cell of [App] reached through [setError], and
    the files handed to the browser so far. *)
Record World := mkWorld {
  isExporting : bool;
  error : option UiText;
  saved : list File
}.

Definition setIsExporting (b : bool) (w : World) : World :=
  mkWorld b (error w) (saved w).
Definition setError (e : option UiText) (w : World) : World :=
  mkWorld (isExporting w) e (saved w).
Definition save (f : File) (w : World) : World :=
  mkWorld (isExporting w) (error w) (saved w ++ [f]).

Definition MSG_PNG : UiText :=
  "Не удалось экспортировать схему. Попробуйте еще раз."%string.

(** Lines 80-122. *)
Definition exportToPng (dom : Dom) (nodes : list RFNode.t) (w : World) : World :=
  if negb (wrapper dom) || (List.length nodes =? 0)%nat then w
  else
    let w := setIsExporting true w in
    let w := setError None w in
    let w :=
      (* try *)
      if negb (viewport dom) then
        (* throw new Error(..), caught below *)
        setError (Some MSG_PNG) w
      else
        match toPng dom with
        | Some dataUrl =>
            save (mkFile (lit "process-schema.png") (ImageContent dataUrl)) w
        | None =>
            (* catch *)
            setError (Some MSG_PNG) w
        end in
    (* finally *)
    setIsExporting false w.

Definition save_text (d : option (Download jsstring)) (w : World) : World :=
  match d with
  | Some f => save (mkFile (download f) (TextContent (content f))) w
  | None => w
  end.

Definition save_json (d : option (Download ExportData.t)) (w : World) : World :=
  match d with
  | Some f => save (mkFile (download f) (JsonContent (content f))) w
  | None => w
  end.

Section Menu.

Variable number_to_string : number -> jsstring.

(** Lines 251-266: the [switch] over the format. *)
Definition handleExportFormat (dom : Dom) (nodes : list RFNode.t)
  (edges : list Edge.t) (format : jsstring) (w : World) : World :=
  if JsString.eqb format (lit "png") then exportToPng dom nodes w
  else if JsString.eqb format (lit "bpmn") then
    save_text (exportToBpmn number_to_string nodes edges) w
  else if JsString.eqb format (lit "mermaid") then
    save_text (exportToMermaid nodes edges) w
  else if JsString.eqb format (lit "json") then
    save_json (exportToJson nodes edges) w
  else w.

End Menu.

(** Line 268. *)
Definition isDisabled (isExporting : bool) (nodes : list RFNode.t) : bool :=
  isExporting || (List.length nodes =? 0)%nat.

End ExportMenu.

(* ===================================================================== *)
(** * Properties of diagrams *)
(* ===================================================================== *)

Module Diagram.

(** The element shown in a node agrees with the data stored beside it. *)
Definition label_consistent (n : RFNode.t) : Prop :=
  let d := RFNode.data n in
  CustomNodeContent.label (NodeData.label d) = NodeData.text d
  /\ CustomNodeContent.actor (NodeData.label d) = NodeData.actor d
  /\ CustomNodeContent.isAction (NodeData.label d)
     = match NodeData.isAction d with Some b => b | None => false end.

Definition obj_label_consistent (n : NodeObj.t) : Prop :=
  match n with
  | NodeObj.Full n' => label_consistent n'
  | NodeObj.PositionOnly _ => True
  end.

(** Some node carries the id [i]. *)
Definition has_node (nodes : list NodeObj.t) (i : jsstring) : Prop :=
  exists n, In n nodes /\ NodeObj.id n = Some i.

(** Every edge starts and ends at a node of the diagram. *)
Definition edges_closed (s : App.State) : Prop :=
  forall e, In e (App.edges s) ->
    has_node (App.nodes s) (Edge.source e)
    /\ has_node (App.nodes s) (Edge.target e).

(** The number of line feeds in a string. *)
Definition count_lf (s : jsstring) : nat :=
  List.length (List.filter (N.eqb 10) s).

Definition no_lf (s : jsstring) : Prop := count_lf s = 0%nat.

End Diagram.

(* ===================================================================== *)
(** * Sample data *)
(* ===================================================================== *)

Module Samples.

Definition text : jsstring := lit "Hi there. Go now! Done".

(** A search that reports the first element of the collection. *)
Definition first_hit (opts : Fuse.Options) (coll : list Highlight.Sentence)
  (pattern : jsstring) : list (Fuse.Result Highlight.Sentence) :=
  match coll with
  | s :: _ => [Fuse.mkResult s 0 0.5%float]
  | [] => []
  end.

Definition flow : FlowData.t :=
  FlowData.mk
    [ FlowNode.mk (lit "n1")
        (lit "Register " ++ [34%N] ++ lit "A&B" ++ [34%N] ++ lit " <request>")
        (Some (lit "action")) (Some (lit "clerk")) None;
      FlowNode.mk (lit "n2") (lit "Complete?") (Some (lit "decision")) None None;
      FlowNode.mk (lit "n3") (lit "Archive") (Some (lit "action")) (Some (lit "")) None ]
    [ FlowEdge.mk (lit "n1") (lit "n2") None;
      FlowEdge.mk (lit "n2") (lit "n1") (Some (lit "back to start"));
      FlowEdge.mk (lit "n2") (lit "n3") (Some (lit "")) ]
    None.

Definition nodes : list RFNode.t := reactFlowNodes flow.
Definition edges : list Edge.t := reactFlowEdges flow.

(** A layout that places every child it is given at the same point. *)
Definition stack_layout (g : Elk.Graph) : Elk.Outcome :=
  Elk.Returns
    (Elk.mkLayouted
       (Some (List.map
                (fun ch => Elk.mkChildOut (RFNode.id (Elk.node ch))
                                          40%float 120%float)
                (Elk.children g)))).

(** Printing of the coordinates of the sample nodes, which all sit at the
    origin. *)
Definition print_number (x : number) : jsstring := lit "0".

(** A backend that answers every request with the sample flow. *)
Definition backend_ok (req : Http.Request) : Http.FetchResult FlowData.t :=
  Http.Responded (Http.mkResponse 200 (Some flow)).

(** A backend that answers every request with status 500. *)
Definition backend_500 (req : Http.Request) : Http.FetchResult FlowData.t :=
  Http.Responded (Http.mkResponse 500 None).

Definition failing_layout (g : Elk.Graph) : Elk.Outcome := Elk.Throws.

Definition api : jsstring := lit "http://127.0.0.1:8000".

(** [App] before the first click on "build", with a model selected. *)
Definition fresh_app : App.World :=
  App.mkWorld
    (App.mkState [] [] text None false None false (lit "model-a") None)
    [].

Definition models : list ModelSelector.Model :=
  [ ModelSelector.mkModel (lit "model-a") (lit "Model A") (lit "fast");
    ModelSelector.mkModel (lit "model-b") (lit "Model B") (lit "precise") ].

Definition models_backend (req : Http.Request)
  : Http.FetchResult ModelSelector.ModelsData :=
  Http.Responded
    (Http.mkResponse 200 (Some (ModelSelector.mkData (Some models)))).

Definition menu_on_node : App.State :=
  App.mkState (List.map NodeObj.Full nodes) edges text None false None true
    (lit "model-a")
    (Some (App.mkMenu 10%float 20%float App.TargetNode (lit "n2"))).

Definition menu_on_edge : App.State :=
  App.mkState (List.map NodeObj.Full nodes) edges text None false None true
    (lit "model-a")
    (Some (App.mkMenu 10%float 20%float App.TargetEdge (lit "e-n2-n1-1"))).

End Samples.

(** Further sample data, for the handlers around the diagram. *)
Module Scenarios.

(** The sample diagram with the menu open on node [n2], edit mode off. *)
Definition locked : App.State :=
  AppHandlers.setIsEditMode false Samples.menu_on_node.

(** Attempts to change the diagram. *)
Definition attempts : list FlowDiagram.Event :=
  [ FlowDiagram.NodeContextMenu 1%float 2%float (lit "n1");
    FlowDiagram.DeleteItemClick;
    FlowDiagram.EditItemClick (fun _ _ => Some (lit "x"));
    FlowDiagram.EdgesChange (fun _ => []);
    FlowDiagram.Connect 5%float
      (FlowDiagram.mkConnection (Some (lit "n1")) (Some (lit "n3")) None None)
      (fun _ eds => eds) ].

(** The user answers the prompt with a new name. *)
Definition rename_prompt (message : UiText) (value : jsstring)
  : option jsstring :=
  Some (lit "Is it complete?").

(** A page on which the PNG export succeeds. *)
Definition page : ExportMenu.Dom :=
  ExportMenu.mkDom true true (Some (lit "data:image/png;base64,AAAA")).

Definition idle : ExportMenu.World := ExportMenu.mkWorld false None [].

(** A backend whose answer to [GET /models] is the object [{}]. *)
Definition models_backend_without_list (req : Http.Request)
  : Http.FetchResult ModelSelector.ModelsData :=
  Http.Responded (Http.mkResponse 200 (Some (ModelSelector.mkData None))).

(** [App] on mount: nothing built, no model selected. *)
Definition app_on_mount : App.State :=
  App.mkState [] [] Samples.text None false None false (lit "") None.

End Scenarios.

(* ===================================================================== *)
(** * Facts about JavaScript strings *)
(* ===================================================================== *)

Section StringFacts.

Lemma eqb_eq (a b : jsstring) : JsString.eqb a b = true <-> a = b.
Proof.
  revert b; induction a as [|x a IH]; intros [|y b]; simpl; split;
    try congruence; try reflexivity.
  - intros H. apply andb_true_iff in H as [Hx Hab].
    apply N.eqb_eq in Hx. apply IH in Hab. congruence.
  - intros H. injection H as -> ->.
    apply andb_true_iff; split; [apply N.eqb_refl | now apply IH].
Qed.

Lemma eqb_refl (a : jsstring) : JsString.eqb a a = true.
Proof. now apply eqb_eq. Qed.

Lemma eqb_neq (a b : jsstring) : JsString.eqb a b = false <-> a <> b.
Proof.
  split.
  - intros H E. apply eqb_eq in E. congruence.
  - intros H. destruct (JsString.eqb a b) eqn:E; [|reflexivity].
    apply eqb_eq in E. contradiction.
Qed.

Lemma truthy_nonempty (s : jsstring) : truthy s = true <-> s <> [].
Proof. destruct s; simpl; split; congruence. Qed.

Lemma occurs_in_refl (s : jsstring) : occurs_in s s.
Proof. exists [], []. now rewrite app_nil_r. Qed.

Lemma occurs_in_trans (a b c : jsstring) :
  occurs_in a b -> occurs_in b c -> occurs_in a c.
Proof.
  intros (p1 & q1 & ->) (p2 & q2 & ->).
  exists (p2 ++ p1), (q1 ++ q2). now rewrite <- !app_assoc.
Qed.

Lemma occurs_in_app_l (t s pre : jsstring) :
  occurs_in t s -> occurs_in t (pre ++ s).
Proof.
  intros (p & q & ->). exists (pre ++ p), q. now rewrite <- app_assoc.
Qed.

Lemma occurs_in_app_r (t s post : jsstring) :
  occurs_in t s -> occurs_in t (s ++ post).
Proof.
  intros (p & q & ->). exists p, (q ++ post). now rewrite <- !app_assoc.
Qed.

Lemma occurs_in_length (t s : jsstring) :
  occurs_in t s -> (List.length t <= List.length s)%nat.
Proof. intros (p & q & ->). rewrite !length_app. lia. Qed.

(** ** [trim] *)

Lemma trimStart_suffix (s : jsstring) : exists ws, s = ws ++ trimStart s.
Proof.
  induction s as [|c s [ws IH]]; simpl.
  - now exists [].
  - destruct (is_white_space c).
    + exists (c :: ws). simpl. now f_equal.
    + now exists [].
Qed.

Lemma trimEnd_prefix (s : jsstring) : exists ws, s = trimEnd s ++ ws.
Proof.
  unfold trimEnd. destruct (trimStart_suffix (rev s)) as [ws H].
  exists (rev ws). rewrite <- rev_app_distr, <- H. now rewrite rev_involutive.
Qed.

Lemma trim_occurs_in (s : jsstring) : occurs_in (trim s) s.
Proof.
  unfold trim.
  destruct (trimStart_suffix s) as [ws1 H1].
  destruct (trimEnd_prefix (trimStart s)) as [ws2 H2].
  exists ws1, ws2. now rewrite <- H2.
Qed.

Lemma trimStart_all_white (s : jsstring) :
  forallb is_white_space s = true -> trimStart s = [].
Proof.
  induction s as [|c s IH]; simpl; [reflexivity|].
  intros H. apply andb_true_iff in H as [-> Hs]. now apply IH.
Qed.

Lemma trim_all_white (s : jsstring) :
  forallb is_white_space s = true -> trim s = [].
Proof.
  intros H. unfold trim. now rewrite (trimStart_all_white s H).
Qed.

(** ** [split] *)

Lemma split_go_occurs (s : jsstring) :
  forall in_sep cur p,
    In p (split_go in_sep cur s) -> occurs_in p (rev cur ++ s).
Proof.
  induction s as [|c s IH]; intros in_sep cur p; simpl.
  - intros [<-|[]]. rewrite app_nil_r. apply occurs_in_refl.
  - destruct (is_sentence_end c).
    + assert (Hrest : In p (split_go true [] s) -> occurs_in p (rev cur ++ c :: s)).
      { intros H. apply IH in H. simpl in H.
        apply occurs_in_app_l. now apply (occurs_in_app_l p s [c]). }
      destruct in_sep; [exact Hrest|].
      intros [<-|H]; [|now apply Hrest].
      apply occurs_in_app_r, occurs_in_refl.
    + intros H. apply IH in H. simpl in H.
      now rewrite <- app_assoc in H.
Qed.

Lemma split_sentences_occurs (s p : jsstring) :
  In p (split_sentences s) -> occurs_in p s.
Proof. intros H. now apply split_go_occurs in H. Qed.

(** ** [indexOf] *)

Lemma starts_with_app (t post : jsstring) : starts_with t (t ++ post) = true.
Proof.
  induction t as [|a t IH]; simpl; [reflexivity|].
  now rewrite N.eqb_refl.
Qed.

Lemma starts_with_length (t s : jsstring) :
  starts_with t s = true -> (List.length t <= List.length s)%nat.
Proof.
  revert s; induction t as [|a t IH]; intros [|b s]; simpl; try lia; try congruence.
  intros H. apply andb_true_iff in H as [_ H]. apply IH in H. lia.
Qed.

Lemma indexOf_from_bounds (s t : jsstring) :
  forall i, occurs_in t s ->
    (i <= indexOf_from i s t
     /\ indexOf_from i s t + JsString.length t <= i + JsString.length s)%Z.
Proof.
  unfold JsString.length.
  induction s as [|c s IH]; intros i Hocc; simpl.
  - destruct Hocc as (p & q & H). symmetry in H.
    apply app_eq_nil in H as [-> H]. apply app_eq_nil in H as [-> ->].
    simpl. lia.
  - destruct (starts_with t (c :: s)) eqn:E.
    + apply starts_with_length in E. simpl in E. lia.
    + destruct Hocc as ([|c' p] & q & H).
      * simpl in H. rewrite H, starts_with_app in E. discriminate.
      * injection H as -> ->.
        destruct (IH (i + 1)%Z) as [H1 H2]; [now exists p, q|].
        simpl List.length. lia.
Qed.

Lemma indexOf_bounds (s t : jsstring) :
  occurs_in t s ->
  (0 <= indexOf s t /\ indexOf s t + JsString.length t <= JsString.length s)%Z.
Proof. intros H. apply (indexOf_from_bounds s t 0%Z H). Qed.

(** ** [substring] *)

Lemma clamp_in_range (s : jsstring) (z : Z) :
  (0 <= z <= JsString.length s)%Z -> clamp s z = Z.to_nat z.
Proof. intros H. unfold clamp. f_equal. lia. Qed.

Lemma substring_partition (s : jsstring) (a b : Z) :
  (0 <= a <= b)%Z -> (b <= JsString.length s)%Z ->
  substring s 0 a ++ substring s a b ++ substring_from s b = s.
Proof.
  intros Hab Hb. unfold substring, substring_from.
  rewrite (clamp_in_range s a), (clamp_in_range s b) by lia.
  assert (H0 : clamp s 0 = 0%nat) by (unfold clamp, JsString.length; lia).
  rewrite H0.
  rewrite Nat.min_0_l, Nat.max_0_l, Nat.sub_0_r. simpl skipn.
  rewrite Nat.min_l, Nat.max_r by lia.
  set (m := Z.to_nat a). set (n := Z.to_nat b).
  assert (Hmn : (m <= n)%nat) by (subst m n; lia).
  assert (Hskip : skipn n s = skipn (n - m) (skipn m s)).
  { rewrite skipn_skipn. f_equal. lia. }
  rewrite Hskip, (firstn_skipn (n - m) (skipn m s)).
  apply firstn_skipn.
Qed.

End StringFacts.

(* ===================================================================== *)
(** * [findHighlightRange] stays inside the text *)
(* ===================================================================== *)

Section HighlightFacts.

Import Highlight.

Variable fuse_search :
  Fuse.Options -> list Sentence -> jsstring -> list (Fuse.Result Sentence).

Lemma sentences_of_in_range (fullText : jsstring) (st : Sentence) :
  In st (sentences_of fullText) ->
  (0 <= startPos st <= endPos st /\ endPos st <= JsString.length fullText)%Z.
Proof.
  unfold sentences_of. intros H.
  apply in_map_iff in H as (piece & <- & Hpiece).
  apply filter_In in Hpiece as [Hpiece _].
  assert (Hocc : occurs_in (trim piece) fullText).
  { eapply occurs_in_trans; [apply trim_occurs_in|].
    now apply split_sentences_occurs. }
  destruct (indexOf_bounds fullText (trim piece) Hocc) as [H0 H1].
  simpl. unfold JsString.length in *. lia.
Qed.

Lemma findHighlightRange_is_sentence (fullText : jsstring)
  (nodeText : option jsstring) (start end_ : Z) :
  Fuse.returns_items fuse_search ->
  findHighlightRange fuse_search fullText nodeText = Some (start, end_) ->
  exists st, In st (sentences_of fullText)
             /\ start = startPos st /\ end_ = endPos st.
Proof.
  intros Hfuse. unfold findHighlightRange.
  destruct nodeText as [t|]; [|discriminate].
  destruct (negb (truthy (trim t))); [discriminate|].
  destruct (List.length (sentences_of fullText) =? 0)%nat; [discriminate|].
  destruct (fuse_search fuse_options (sentences_of fullText) (trim t))
    as [|r0 rest] eqn:E; [discriminate|].
  destruct (confident (Fuse.score r0)); [|discriminate].
  intros [= <- <-]. exists (Fuse.item r0). split; [|split; reflexivity].
  apply (Hfuse fuse_options (sentences_of fullText) (trim t)).
  rewrite E. now left.
Qed.

(** C9.  [findHighlightRange] answers [null] when [nodeText] is [undefined]
    or made of white space only; and, Fuse returning elements of the
    collection it was given, every pair [[start, end]] it answers satisfies
    [0 <= start <= end <= fullText.length], so that the three [substring]
    calls of the overlay cut [fullText] into three consecutive pieces. *)
Theorem findHighlightRange_in_range
  (Hfuse : Fuse.returns_items fuse_search)
  (fullText : jsstring) (nodeText : option jsstring) :
  (nodeText = None
   \/ (exists t, nodeText = Some t /\ forallb is_white_space t = true) ->
   findHighlightRange fuse_search fullText nodeText = None)
  /\ (forall start end_,
        findHighlightRange fuse_search fullText nodeText = Some (start, end_) ->
        (0 <= start <= end_ /\ end_ <= JsString.length fullText)%Z
        /\ substring fullText 0 start ++ substring fullText start end_
             ++ substring_from fullText end_ = fullText).
Proof.
  split.
  - intros [->|(t & -> & Hws)]; [reflexivity|].
    unfold findHighlightRange. now rewrite (trim_all_white t Hws).
  - intros start end_ H.
    destruct (findHighlightRange_is_sentence fullText nodeText start end_ Hfuse H)
      as (st & Hin & -> & ->).
    pose proof (sentences_of_in_range fullText st Hin) as Hrange.
    split; [exact Hrange|].
    apply substring_partition; lia.
Qed.

End HighlightFacts.

Lemma first_hit_returns_items : Fuse.returns_items Samples.first_hit.
Proof.
  intros opts [|s coll] pattern r; simpl; [intros []|].
  intros [<-|[]]. now left.
Qed.

Lemma findHighlightRange_in_range_witness :
  Highlight.findHighlightRange Samples.first_hit Samples.text (Some (lit " Hi "))
  = Some (0, 8)%Z
  /\ ((0 <= 0 <= 8 /\ 8 <= JsString.length Samples.text)%Z
      /\ substring Samples.text 0 0 ++ substring Samples.text 0 8
           ++ substring_from Samples.text 8 = Samples.text).
Proof.
  split; [vm_compute; reflexivity|].
  apply (proj2 (findHighlightRange_in_range Samples.first_hit
                  first_hit_returns_items Samples.text (Some (lit " Hi ")))).
  vm_compute. reflexivity.
Defined.

(* ===================================================================== *)
(** * [processText] *)
(* ===================================================================== *)

Section MapFacts.

Lemma nth_error_mapi_from {A B : Type} (f : A -> nat -> B) (l : list A) :
  forall k i,
    nth_error (mapi_from k f l) i
    = option_map (fun a => f a (k + i)%nat) (nth_error l i).
Proof.
  induction l as [|a l IH]; intros k [|i]; simpl; try reflexivity.
  - now rewrite Nat.add_0_r.
  - rewrite IH. now replace (S k + i)%nat with (k + S i)%nat by lia.
Qed.

Lemma nth_error_mapi {A B : Type} (f : A -> nat -> B) (l : list A) (i : nat) :
  nth_error (mapi f l) i = option_map (fun a => f a i) (nth_error l i).
Proof. unfold mapi. now rewrite nth_error_mapi_from. Qed.

Lemma length_mapi_from {A B : Type} (f : A -> nat -> B) (l : list A) :
  forall k, List.length (mapi_from k f l) = List.length l.
Proof. induction l as [|a l IH]; intros k; simpl; [reflexivity|now rewrite IH]. Qed.

Lemma length_mapi {A B : Type} (f : A -> nat -> B) (l : list A) :
  List.length (mapi f l) = List.length l.
Proof. apply length_mapi_from. Qed.

Lemma reactFlowNode_isAction (node : FlowNode.t) :
  exists b, NodeData.isAction (RFNode.data (reactFlowNode node)) = Some b
    /\ (b = true <->
        FlowNode.type node = Some (lit "action")
        /\ exists a, FlowNode.actor node = Some a /\ a <> []).
Proof.
  eexists; split; [reflexivity|].
  rewrite andb_true_iff. split.
  - intros [Hty Hact]. split.
    + destruct (FlowNode.type node) as [ty|]; [|discriminate].
      apply eqb_eq in Hty. now subst.
    + destruct (FlowNode.actor node) as [a|]; [|discriminate].
      exists a. split; [reflexivity|]. now apply truthy_nonempty.
  - intros [Hty (a & Ha & Hne)]. rewrite Hty, Ha. split.
    + apply eqb_refl.
    + now apply truthy_nonempty.
Qed.

Lemma getLayoutedElements_edges elk_layout nodes edges :
  LayoutResult.edges (getLayoutedElements elk_layout nodes edges) = edges.
Proof.
  unfold getLayoutedElements. now destruct (elk_layout _).
Qed.

End MapFacts.

Section ProcessTextFacts.

Import App.

Variable API_URL : jsstring.
Variable backend : Http.Request -> Http.FetchResult FlowData.t.
Variable elk_layout : Elk.Graph -> Elk.Outcome.

(** The world in which [processText] ends, case by case. *)
Lemma processText_exec (w : World) :
  Eff.exec (processText API_URL backend elk_layout) w =
  let st := state w in
  if negb (truthy (trim (text st))) then
    mkWorld (setError (Some MSG_ENTER_TEXT) st) (sent w)
  else if negb (truthy (selectedModel st)) then
    mkWorld (setError (Some MSG_SELECT_MODEL) st) (sent w)
  else
    let req := process_text_request API_URL (text st) (selectedModel st) in
    let started := setError None (setIsLoading true st) in
    let failed :=
      mkWorld (setIsLoading false (setError (Some MSG_BACKEND) started))
              (sent w ++ [req]) in
    match backend req with
    | Http.Rejected => failed
    | Http.Responded r =>
        if negb (Http.ok r) then failed
        else match Http.json r with
             | None => failed
             | Some data =>
                 let lr := getLayoutedElements elk_layout (reactFlowNodes data)
                                               (reactFlowEdges data) in
                 mkWorld
                   (setIsLoading false
                      (setEdges (fun _ => reactFlowEdges data)
                         (setNodes
                            (fun _ =>
                               if (0 <? List.length (LayoutResult.nodes lr))%nat
                               then LayoutResult.nodes lr
                               else List.map NodeObj.Full (reactFlowNodes data))
                            started)))
                   (sent w ++ [req])
             end
    end.
Proof.
  destruct w as [st snt]. unfold Eff.exec, processText. cbn.
  unfold Eff.bind at 1. cbn.
  destruct (negb (truthy (trim (text st)))); [reflexivity|].
  destruct (negb (truthy (selectedModel st))); [reflexivity|].
  unfold Eff.bind, Eff.try_catch_finally, fetch, update, Eff.modify. cbn.
  destruct (backend _) as [|r]; [reflexivity|]. cbn.
  destruct (negb (Http.ok r)); [reflexivity|].
  unfold response_json.
  destruct (Http.json r) as [data|]; [|reflexivity]. cbn.
  rewrite getLayoutedElements_edges.
  destruct (List.length (LayoutResult.nodes _)); reflexivity.
Qed.

(** C1.  [processText] turns the node list of a response into a React Flow
    node list of the same length and order, keeping [id], with [data.text]
    the label, [data.actor] the actor and [data.isAction] true exactly for
    type ["action"] with a present, non-empty actor; the i-th edge becomes
    the edge with id [e-<from>-<to>-<i>], the same source, target and label,
    length and order kept; and these edges are the ones it stores when the
    response is read successfully. *)
Theorem processText_maps_response (data : FlowData.t) :
  List.length (reactFlowNodes data) = List.length (FlowData.nodes data)
  /\ (forall i node,
        nth_error (FlowData.nodes data) i = Some node ->
        exists out,
          nth_error (reactFlowNodes data) i = Some out
          /\ RFNode.id out = FlowNode.id node
          /\ NodeData.text (RFNode.data out) = FlowNode.label node
          /\ NodeData.actor (RFNode.data out) = FlowNode.actor node
          /\ exists b,
               NodeData.isAction (RFNode.data out) = Some b
               /\ (b = true <->
                   FlowNode.type node = Some (lit "action")
                   /\ exists a, FlowNode.actor node = Some a /\ a <> []))
  /\ List.length (reactFlowEdges data) = List.length (FlowData.edges data)
  /\ (forall i edge,
        nth_error (FlowData.edges data) i = Some edge ->
        exists out,
          nth_error (reactFlowEdges data) i = Some out
          /\ Edge.id out
             = lit "e-" ++ FlowEdge.from edge ++ lit "-" ++ FlowEdge.to edge
               ++ lit "-" ++ of_index i
          /\ Edge.source out = FlowEdge.from edge
          /\ Edge.target out = FlowEdge.to edge
          /\ Edge.label out = FlowEdge.label edge)
  /\ (forall w r,
        truthy (trim (text (state w))) = true ->
        truthy (selectedModel (state w)) = true ->
        backend (process_text_request API_URL (text (state w))
                                      (selectedModel (state w)))
        = Http.Responded r ->
        Http.ok r = true ->
        Http.json r = Some data ->
        let w' := Eff.exec (processText API_URL backend elk_layout) w in
        let lr := getLayoutedElements elk_layout (reactFlowNodes data)
                                      (reactFlowEdges data) in
        edges (state w') = reactFlowEdges data
        /\ nodes (state w')
           = if (0 <? List.length (LayoutResult.nodes lr))%nat
             then LayoutResult.nodes lr
             else List.map NodeObj.Full (reactFlowNodes data)).
Proof.
  split; [apply length_map|].
  split.
  { intros i node Hi. exists (reactFlowNode node).
    split; [unfold reactFlowNodes; now apply map_nth_error|].
    repeat (split; [reflexivity|]).
    apply reactFlowNode_isAction. }
  split; [apply length_mapi|].
  split.
  { intros i edge Hi. exists (reactFlowEdge edge i).
    split; [|repeat split].
    unfold reactFlowEdges. now rewrite nth_error_mapi, Hi. }
  intros w r Htext Hmodel Hresp Hok Hjson.
  cbv zeta. rewrite processText_exec. cbv zeta.
  rewrite Htext, Hmodel, Hresp, Hok, Hjson. cbn. split; reflexivity.
Qed.

(** C2.  [processText] sends the POST to [API_URL/process-text], carrying
    the text and the selected model, only when the trimmed text is not empty
    and a model is selected; otherwise it sets an error message, sends
    nothing and leaves nodes and edges as they were.  When the request is
    rejected, the status is not ok or the body cannot be read, it sets the
    error message and leaves nodes and edges as they were; nodes and edges
    change only on the path that ends without an error. *)
Theorem processText_error_paths (w : World) :
  let st := state w in
  let w' := Eff.exec (processText API_URL backend elk_layout) w in
  let req :=
    Http.mkRequest (API_URL ++ lit "/process-text") (lit "POST")
      [(lit "Content-Type", lit "application/json")]
      (Some (Http.mkBody (text st) (selectedModel st))) in
  let unchanged :=
    nodes (state w') = nodes st /\ edges (state w') = edges st in
  (if truthy (trim (text st)) && truthy (selectedModel st)
   then
     sent w' = sent w ++ [req]
     /\ isLoading (state w') = false
     /\ match backend req with
        | Http.Rejected => error (state w') = Some MSG_BACKEND /\ unchanged
        | Http.Responded r =>
            if Http.ok r then
              match Http.json r with
              | Some data =>
                  error (state w') = None
                  /\ edges (state w') = reactFlowEdges data
              | None => error (state w') = Some MSG_BACKEND /\ unchanged
              end
            else error (state w') = Some MSG_BACKEND /\ unchanged
        end
   else
     sent w' = sent w
     /\ error (state w')
        = Some (if truthy (trim (text st)) then MSG_SELECT_MODEL
                else MSG_ENTER_TEXT)
     /\ unchanged)
  /\ (error (state w') <> None -> unchanged).
Proof.
  cbv zeta. rewrite processText_exec. cbv zeta.
  fold (process_text_request API_URL (text (state w)) (selectedModel (state w))).
  destruct (truthy (trim (text (state w)))); cbn [negb andb];
    [|split; [repeat split|intros _; split; reflexivity]].
  destruct (truthy (selectedModel (state w))); cbn [negb];
    [|split; [repeat split|intros _; split; reflexivity]].
  destruct (backend _) as [|r];
    [split; [repeat split|intros _; split; reflexivity]|].
  destruct (Http.ok r); cbn [negb];
    [|split; [repeat split|intros _; split; reflexivity]].
  destruct (Http.json r) as [data|];
    [|split; [repeat split|intros _; split; reflexivity]].
  split; [repeat split|].
  cbn. intros H. now contradiction H.
Qed.

End ProcessTextFacts.

(* ===================================================================== *)
(** * [getLayoutedElements] *)
(* ===================================================================== *)

Section LayoutFacts.

Variable elk_layout : Elk.Graph -> Elk.Outcome.

Lemma find_by_id_some (nodes : list RFNode.t) (id : jsstring) :
  (exists n, In n nodes /\ RFNode.id n = id) ->
  exists n, List.find (fun m => JsString.eqb (RFNode.id m) id) nodes = Some n
            /\ In n nodes /\ RFNode.id n = id.
Proof.
  intros (n0 & Hin & Hid).
  destruct (List.find (fun m => JsString.eqb (RFNode.id m) id) nodes) as [n|] eqn:E.
  - exists n. split; [reflexivity|].
    apply find_some in E as [Hn Heq]. apply eqb_eq in Heq. now split.
  - apply (find_none _ _ E) in Hin. simpl in Hin.
    rewrite Hid, eqb_refl in Hin. discriminate.
Qed.

(** C3.  [getLayoutedElements] returns the edge list as it is; ELK returning
    children of the graph it was given, every returned node is the input
    node with the same id, equal to it in [id], [type], [data] and [style],
    with [position] taken from ELK's coordinates; and when the ELK call
    throws, nodes and edges come back as they are. *)
Theorem getLayoutedElements_frame (nodes : list RFNode.t) (edges : list Edge.t)
  (Hids : elk_keeps_ids elk_layout nodes edges) :
  let r := getLayoutedElements elk_layout nodes edges in
  LayoutResult.edges r = edges
  /\ match elk_layout (elk_graph nodes edges) with
     | Elk.Throws => LayoutResult.nodes r = List.map NodeObj.Full nodes
     | Elk.Returns g =>
         forall out,
           In out (LayoutResult.nodes r) ->
           exists n out' c cs,
             out = NodeObj.Full out'
             /\ Elk.out_children g = Some cs
             /\ In c cs
             /\ In n nodes
             /\ List.find
                  (fun m => JsString.eqb (RFNode.id m) (RFNode.id out')) nodes
                = Some n
             /\ RFNode.id out' = RFNode.id n
             /\ RFNode.type out' = RFNode.type n
             /\ RFNode.data out' = RFNode.data n
             /\ RFNode.style out' = RFNode.style n
             /\ Elk.child_id c = RFNode.id n
             /\ RFNode.position out' = XYPosition.mk (Elk.x c) (Elk.y c)
     end.
Proof.
  cbv zeta. split; [apply getLayoutedElements_edges|].
  unfold getLayoutedElements. unfold elk_keeps_ids in Hids.
  destruct (elk_layout (elk_graph nodes edges)) as [|g] eqn:E; cbn;
    [reflexivity|].
  destruct (Elk.out_children g) as [cs|] eqn:Ecs; [|intros out []].
  intros out Hout. apply in_map_iff in Hout as (c & <- & Hc).
  destruct (find_by_id_some nodes (Elk.child_id c)) as (n & Hfind & Hn & Hid).
  { exact (Hids g cs c eq_refl Ecs Hc). }
  rewrite Hfind. cbn.
  exists n, (RFNode.with_position n (XYPosition.mk (Elk.x c) (Elk.y c))), c, cs.
  cbn. rewrite Hid.
  repeat (split; [try reflexivity; try assumption|]).
  reflexivity.
Qed.

End LayoutFacts.

Lemma stack_layout_keeps_ids (nodes : list RFNode.t) (edges : list Edge.t) :
  elk_keeps_ids Samples.stack_layout nodes edges.
Proof.
  intros g cs c Hret Hcs Hc. unfold Samples.stack_layout in Hret.
  injection Hret as <-. cbn in Hcs. injection Hcs as <-.
  apply in_map_iff in Hc as (ch & <- & Hch).
  apply in_map_iff in Hch as (n & <- & Hn).
  exists n. now split.
Qed.

Lemma getLayoutedElements_frame_witness :
  elk_keeps_ids Samples.stack_layout Samples.nodes Samples.edges
  /\ LayoutResult.edges
       (getLayoutedElements Samples.stack_layout Samples.nodes Samples.edges)
     = Samples.edges
  /\ List.map NodeObj.id
       (LayoutResult.nodes
          (getLayoutedElements Samples.stack_layout Samples.nodes Samples.edges))
     = [Some (lit "n1"); Some (lit "n2"); Some (lit "n3")].
Proof.
  split; [apply stack_layout_keeps_ids|].
  split; [|vm_compute; reflexivity].
  apply (proj1 (getLayoutedElements_frame Samples.stack_layout
                  Samples.nodes Samples.edges
                  (stack_layout_keeps_ids Samples.nodes Samples.edges))).
Defined.

(* ===================================================================== *)
(** * [handleDeleteFromContext] *)
(* ===================================================================== *)

Section DeleteFacts.

Import App.

Lemma filter_RemoveAll {A : Type} (f : A -> bool) (P : A -> Prop) (l : list A) :
  (forall x, f x = false <-> P x) ->
  RemoveAll P l (List.filter f l).
Proof.
  intros Hf. induction l as [|x l IH]; simpl; [constructor|].
  destruct (f x) eqn:E.
  - apply RemoveAll_keep; [|exact IH].
    intros HP. apply Hf in HP. congruence.
  - apply RemoveAll_drop; [now apply Hf|exact IH].
Qed.

Lemma RemoveAll_In {A : Type} (P : A -> Prop) (l l' : list A) :
  RemoveAll P l l' -> forall x, In x l' <-> In x l /\ ~ P x.
Proof.
  induction 1 as [|y l l' HP _ IH|y l l' HP _ IH]; intros x; simpl.
  - tauto.
  - rewrite IH. split; [tauto|].
    intros [[<-|Hin] Hx]; [contradiction|tauto].
  - rewrite IH. split.
    + intros [<-|[Hin Hx]]; tauto.
    + tauto.
Qed.

Lemma keep_node_false (id : jsstring) (n : NodeObj.t) :
  negb (node_id_is id n) = false <-> NodeObj.id n = Some id.
Proof.
  rewrite negb_false_iff. unfold node_id_is.
  destruct (NodeObj.id n) as [i|]; [|split; discriminate].
  rewrite eqb_eq. split; congruence.
Qed.

Lemma keep_edge_of_node_false (id : jsstring) (e : Edge.t) :
  negb (JsString.eqb (Edge.source e) id) && negb (JsString.eqb (Edge.target e) id)
  = false
  <-> Edge.source e = id \/ Edge.target e = id.
Proof.
  rewrite andb_false_iff, !negb_false_iff, !eqb_eq. tauto.
Qed.

Lemma keep_edge_false (id : jsstring) (e : Edge.t) :
  negb (JsString.eqb (Edge.id e) id) = false <-> Edge.id e = id.
Proof. now rewrite negb_false_iff, eqb_eq. Qed.

(** C8.  With a context menu open in edit mode, [handleDeleteFromContext]
    on a node target takes out the node with the menu's id and every edge
    whose source or target is that id, and nothing else, so that no
    remaining edge mentions the id; on an edge target it takes out the edge
    with the menu's id and nothing else, the nodes staying as they are.  The
    menu is closed in both cases. *)
Theorem handleDeleteFromContext_removes (s : State) (menu : ContextMenu)
  (Hmenu : contextMenu s = Some menu) (Hedit : isEditMode s = true) :
  let s' := handleDeleteFromContext s in
  let id := menu_id menu in
  match target menu with
  | TargetNode =>
      RemoveAll (fun n => NodeObj.id n = Some id) (nodes s) (nodes s')
      /\ RemoveAll (fun e => Edge.source e = id \/ Edge.target e = id)
                   (edges s) (edges s')
      /\ (forall e, In e (edges s') -> Edge.source e <> id /\ Edge.target e <> id)
  | TargetEdge =>
      nodes s' = nodes s
      /\ RemoveAll (fun e => Edge.id e = id) (edges s) (edges s')
  end
  /\ contextMenu s' = None.
Proof.
  cbv zeta. unfold handleDeleteFromContext. rewrite Hmenu, Hedit. cbn [negb].
  destruct (target menu); cbn; (split; [|reflexivity]).
  - assert (Hedges :
      RemoveAll (fun e => Edge.source e = menu_id menu \/ Edge.target e = menu_id menu)
        (edges s)
        (List.filter
           (fun e => negb (JsString.eqb (Edge.source e) (menu_id menu))
                     && negb (JsString.eqb (Edge.target e) (menu_id menu)))
           (edges s))).
    { apply filter_RemoveAll. intros e. apply keep_edge_of_node_false. }
    split; [|split; [exact Hedges|]].
    + apply filter_RemoveAll. intros n. apply keep_node_false.
    + intros e He. apply (RemoveAll_In _ _ _ Hedges) in He as [_ He]. tauto.
  - split; [reflexivity|].
    apply filter_RemoveAll. intros e. apply keep_edge_false.
Qed.

End DeleteFacts.

Lemma handleDeleteFromContext_removes_witness :
  List.map NodeObj.id (App.nodes (App.handleDeleteFromContext Samples.menu_on_node))
  = [Some (lit "n1"); Some (lit "n3")]
  /\ App.edges (App.handleDeleteFromContext Samples.menu_on_node) = []
  /\ App.contextMenu (App.handleDeleteFromContext Samples.menu_on_node) = None.
Proof.
  split; [vm_compute; reflexivity|].
  split; [vm_compute; reflexivity|].
  exact (proj2 (handleDeleteFromContext_removes Samples.menu_on_node
                  (App.mkMenu 10%float 20%float App.TargetNode (lit "n2"))
                  eq_refl eq_refl)).
Defined.

(* ===================================================================== *)
(** * [ModelSelector] *)
(* ===================================================================== *)

Section ModelSelectorFacts.

Import ModelSelector.

Variable API_URL : jsstring.
Variable backend : Http.Request -> Http.FetchResult ModelsData.
Variable selectedModel : jsstring.

(** C7.  [fetchModels], run on mount (or from any later state with a model
    list), sends one GET to [API_URL/models].  When the response is ok and
    carries a model list it stores the list, clears the error and, no model
    being selected and the list not empty, calls [onModelChange] with the id
    of the first model; the dropdown is rendered.  When the request is
    rejected, the status is not ok or the body cannot be read, it stores the
    error message, which is rendered in place of the dropdown, the list
    stays as it was and [onModelChange] is not called.  (An ok response
    whose object has no [models] field is none of these cases: [undefined]
    is stored, [onModelChange] is not called, and the next render throws.) *)
Theorem fetchModels_on_mount (current : list Model) (loading : bool)
  (shown : option UiText) (requests : list Http.Request)
  (calls : list jsstring) :
  let w := mkWorld (mkState (Some current) loading shown) requests calls in
  let w' := Eff.exec (fetchModels API_URL backend selectedModel) w in
  let req := Http.mkRequest (API_URL ++ lit "/models") (lit "GET") [] None in
  let failure :=
    error (state w') = Some MSG_MODELS
    /\ modelChanges w' = calls
    /\ models (state w') = Some current
    /\ render selectedModel (state w') = ErrorView MSG_MODELS in
  sent w' = requests ++ [req]
  /\ loadingModels (state w') = false
  /\ match backend req with
     | Http.Rejected => failure
     | Http.Responded r =>
         if Http.ok r then
           match Http.json r with
           | Some data =>
               match data_models data with
               | Some ms =>
                   models (state w') = Some ms
                   /\ error (state w') = None
                   /\ modelChanges w'
                      = calls
                        ++ match selectedModel, ms with
                           | [], first :: _ => [id first]
                           | _, _ => []
                           end
                   /\ render selectedModel (state w')
                      = DropdownView ms
                          (List.find
                             (fun m => JsString.eqb (id m) selectedModel) ms)
               | None =>
                   models (state w') = None
                   /\ error (state w')
                      = (if truthy selectedModel then None else Some MSG_MODELS)
                   /\ modelChanges w' = calls
                   /\ render selectedModel (state w') = RenderThrows
               end
           | None => failure
           end
         else failure
     end.
Proof.
  cbv zeta.
  unfold Eff.exec, fetchModels, Eff.try_catch_finally, Eff.bind, fetch,
    models_request, update, Eff.modify. cbn.
  destruct (backend _) as [|r]; cbn; [now repeat split|].
  destruct (Http.ok r); cbn; [|now repeat split].
  unfold response_json.
  destruct (Http.json r) as [data|]; cbn; [|now repeat split].
  destruct (data_models data) as [ms|]; cbn.
  - destruct selectedModel as [|c sel]; cbn.
    + destruct ms as [|first rest]; cbn.
      * rewrite app_nil_r. now repeat split.
      * now repeat split.
    + rewrite app_nil_r. now repeat split.
  - destruct selectedModel as [|c sel]; cbn; now repeat split.
Qed.

End ModelSelectorFacts.

(* ===================================================================== *)
(** * [ExportPanel] *)
(* ===================================================================== *)

(** Bring both sides of an equation between concatenations to the
    right-nested form. *)
Ltac normalize_append :=
  repeat first [rewrite <- app_assoc | progress cbn [app]].

Section ExportFacts.

Import ExportPanel.

Lemma nonempty_length {A : Type} (l : list A) :
  l <> [] -> (List.length l =? 0)%nat = false.
Proof. destruct l; [congruence|reflexivity]. Qed.

Lemma fold_left_append {A : Type} (f : A -> jsstring) (l : list A) :
  forall init,
    fold_left (fun acc x => acc ++ f x) l init = init ++ List.concat (List.map f l).
Proof.
  induction l as [|x l IH]; intros init; simpl.
  - now rewrite app_nil_r.
  - now rewrite IH, <- app_assoc.
Qed.

Lemma In_concat_occurs (x : jsstring) (l : list jsstring) :
  In x l -> occurs_in x (List.concat l).
Proof.
  induction l as [|y l IH]; simpl; [intros []|].
  intros [->|H].
  - apply occurs_in_app_r, occurs_in_refl.
  - now apply occurs_in_app_l, IH.
Qed.

Lemma In_join_occurs (sep x : jsstring) (l : list jsstring) :
  In x l -> occurs_in x (join sep l).
Proof.
  induction l as [|y l IH]; [intros []|].
  intros [->|H].
  - destruct l; simpl; [apply occurs_in_refl|].
    apply occurs_in_app_r, occurs_in_refl.
  - specialize (IH H). destruct l as [|z l]; [destruct H|].
    change (join sep (y :: z :: l)) with (y ++ sep ++ join sep (z :: l)).
    now apply occurs_in_app_l, occurs_in_app_l.
Qed.

Lemma includes_complete (t s : jsstring) :
  occurs_in t s -> includes s t = true.
Proof.
  assert (Hunfold : forall s', includes s' t = true
                               \/ starts_with t s' = true -> includes s' t = true).
  { intros s' [H|H]; [exact H|]. destruct s'; simpl; now rewrite H. }
  intros (pre & post & ->). induction pre as [|c pre IH]; simpl.
  - apply Hunfold. right. apply starts_with_app.
  - rewrite IH. apply orb_true_r.
Qed.

Lemma excluded_not_occurs (t s : jsstring) :
  includes s t = false -> ~ occurs_in t s.
Proof.
  intros H Hocc. apply includes_complete in Hocc. congruence.
Qed.

(** C4.  For a non-empty node list, [exportToJson] builds one object per
    node, in order, with the node's [id], [label] the node's [data.text],
    [actor] the node's [data.actor], [type] ["action"] when [data.isAction]
    is true and ["decision"] otherwise, and the node's [position]; and one
    object per edge, in order, with the edge's [id], [from] its source, [to]
    its target, and its [label]. *)
Theorem exportToJson_serializes (nodes : list RFNode.t) (edges : list Edge.t)
  (Hnodes : nodes <> []) :
  exists d,
    exportToJson nodes edges = Some d
    /\ List.length (ExportData.nodes (content d)) = List.length nodes
    /\ (forall i node,
          nth_error nodes i = Some node ->
          exists o,
            nth_error (ExportData.nodes (content d)) i = Some o
            /\ ExportNode.id o = RFNode.id node
            /\ ExportNode.label o = NodeData.text (RFNode.data node)
            /\ ExportNode.actor o = NodeData.actor (RFNode.data node)
            /\ ExportNode.type o
               = match NodeData.isAction (RFNode.data node) with
                 | Some true => lit "action"
                 | _ => lit "decision"
                 end
            /\ ExportNode.position o = RFNode.position node)
    /\ List.length (ExportData.edges (content d)) = List.length edges
    /\ (forall i edge,
          nth_error edges i = Some edge ->
          exists o,
            nth_error (ExportData.edges (content d)) i = Some o
            /\ ExportEdge.id o = Edge.id edge
            /\ ExportEdge.from o = Edge.source edge
            /\ ExportEdge.to o = Edge.target edge
            /\ ExportEdge.label o = Edge.label edge).
Proof.
  unfold exportToJson. rewrite (nonempty_length nodes Hnodes).
  eexists; split; [reflexivity|]. cbn.
  split; [apply length_map|].
  split.
  { intros i node Hi. exists (export_node node).
    split; [now apply map_nth_error|].
    repeat (split; [reflexivity|]).
    split; [|reflexivity].
    unfold export_node, isAction. cbn.
    now destruct (NodeData.isAction (RFNode.data node)) as [[|]|]. }
  split; [apply length_map|].
  intros i edge Hi. exists (export_edge edge).
  split; [now apply map_nth_error|]. now repeat split.
Qed.

(** C6.  For a non-empty node list, [exportToMermaid] writes the line
    [graph TD], then one line per node, in order, reading [id["text"]] for a
    node with [data.isAction] true and [id{"text"}] for any other node, then
    one line per edge, in order, reading [source -->|"label" target] for an
    edge with a (non-empty) label and [source --> target] for an edge
    without one; every such line is indented by four spaces and ended by a
    line feed. *)
Theorem exportToMermaid_lines (nodes : list RFNode.t) (edges : list Edge.t)
  (Hnodes : nodes <> []) :
  exists d,
    exportToMermaid nodes edges = Some d
    /\ content d
       = lit "graph TD" ++ newline
         ++ List.concat
              (List.map
                 (fun node =>
                    lit "    "
                    ++ match NodeData.isAction (RFNode.data node) with
                       | Some true =>
                           RFNode.id node ++ lit "[" ++ dquote
                             ++ NodeData.text (RFNode.data node) ++ dquote
                             ++ lit "]"
                       | _ =>
                           RFNode.id node ++ lit "{" ++ dquote
                             ++ NodeData.text (RFNode.data node) ++ dquote
                             ++ lit "}"
                       end
                    ++ newline)
                 nodes)
         ++ List.concat
              (List.map
                 (fun edge =>
                    lit "    "
                    ++ match Edge.label edge with
                       | Some (c :: l) =>
                           Edge.source edge ++ lit " -->|" ++ dquote
                             ++ (c :: l) ++ dquote ++ lit " " ++ Edge.target edge
                       | Some [] | None =>
                           Edge.source edge ++ lit " --> " ++ Edge.target edge
                       end
                    ++ newline)
                 edges).
Proof.
  unfold exportToMermaid. rewrite (nonempty_length nodes Hnodes).
  eexists; split; [reflexivity|]. cbn [content].
  rewrite !fold_left_append, <- !app_assoc.
  do 3 f_equal; f_equal; apply map_ext.
  - intros node. unfold isAction.
    destruct (NodeData.isAction (RFNode.data node)) as [[|]|]; cbn;
      now normalize_append.
  - intros edge.
    destruct (Edge.label edge) as [[|c l]|]; cbn; now normalize_append.
Qed.

Variable number_to_string : number -> jsstring.

(** C5.  For a non-empty node list, [exportToBpmn] writes, between the
    opening tag of the one [bpmn:process] element and its closing tag, one
    element per node, in order: a [bpmn:task] when [data.isAction] is true
    and a [bpmn:exclusiveGateway] otherwise, with the node's [id] as [id]
    and the node's [data.text] as [name]; then one [bpmn:sequenceFlow] per
    edge, in order, with the edge's source as [sourceRef] and its target as
    [targetRef].  The text before the opening tag holds no other
    [bpmn:process] tag. *)
Theorem exportToBpmn_process (nodes : list RFNode.t) (edges : list Edge.t)
  (Hnodes : nodes <> []) :
  exists d before after,
    exportToBpmn number_to_string nodes edges = Some d
    /\ includes before (lit "<bpmn:process") = false
    /\ content d
       = before
         ++ tpl "  <bpmn:process id='Process_1' isExecutable='true'>" ++ newline
         ++ join newline
              (List.map
                 (fun node =>
                    tpl "    <"
                    ++ match NodeData.isAction (RFNode.data node) with
                       | Some true => lit "bpmn:task"
                       | _ => lit "bpmn:exclusiveGateway"
                       end
                    ++ tpl " id='" ++ RFNode.id node
                    ++ tpl "' name='" ++ NodeData.text (RFNode.data node)
                    ++ tpl "' />")
                 nodes)
         ++ newline
         ++ join newline
              (List.map
                 (fun edge =>
                    tpl "    <bpmn:sequenceFlow id='" ++ Edge.id edge
                    ++ tpl "' sourceRef='" ++ Edge.source edge
                    ++ tpl "' targetRef='" ++ Edge.target edge ++ tpl "' />")
                 edges)
         ++ newline
         ++ tpl "  </bpmn:process>"
         ++ after.
Proof.
  unfold exportToBpmn. rewrite (nonempty_length nodes Hnodes).
  eexists.
  exists bpmn_prolog.
  eexists.
  split; [reflexivity|].
  split; [vm_compute; reflexivity|].
  cbn [content].
  unfold bpmn_head, bpmn_middle.
  rewrite <- !app_assoc.
  do 4 f_equal. f_equal. apply map_ext. intros node. unfold isAction.
  now destruct (NodeData.isAction (RFNode.data node)) as [[|]|].
Qed.

Lemma join_map_occurs {A : Type} (f : A -> jsstring) (sep : jsstring)
  (l : list A) (x : A) (t : jsstring) :
  In x l -> occurs_in t (f x) -> occurs_in t (join sep (List.map f l)).
Proof.
  intros Hx Ht. eapply occurs_in_trans; [exact Ht|].
  apply In_join_occurs. now apply in_map.
Qed.

Lemma concat_map_occurs {A : Type} (f : A -> jsstring) (l : list A) (x : A)
  (t : jsstring) :
  In x l -> occurs_in t (f x) -> occurs_in t (List.concat (List.map f l)).
Proof.
  intros Hx Ht. eapply occurs_in_trans; [exact Ht|].
  apply In_concat_occurs. now apply in_map.
Qed.

(** C10, as amended.  Both exporters insert each node's [data.text]
    character for character, whatever characters it holds: for every node
    of a non-empty node list the BPMN text contains [name="<text>"] and the
    Mermaid text contains ["<text>"].  The Mermaid exporter inserts every
    non-empty edge label in the same way, as [|"<label>"]; the BPMN text
    does not depend on the edge labels. *)
Theorem exporters_embed_text_verbatim (nodes : list RFNode.t)
  (edges : list Edge.t) (Hnodes : nodes <> []) :
  exists bpmn mermaid,
    exportToBpmn number_to_string nodes edges = Some bpmn
    /\ exportToMermaid nodes edges = Some mermaid
    /\ (forall node,
          In node nodes ->
          occurs_in (tpl "name='" ++ NodeData.text (RFNode.data node) ++ dquote)
                    (content bpmn)
          /\ occurs_in (dquote ++ NodeData.text (RFNode.data node) ++ dquote)
                       (content mermaid))
    /\ (forall edge l,
          In edge edges -> Edge.label edge = Some l -> l <> [] ->
          occurs_in (lit "|" ++ dquote ++ l ++ dquote) (content mermaid))
    /\ (forall edges',
          List.map (fun e => (Edge.id e, Edge.source e, Edge.target e)) edges'
          = List.map (fun e => (Edge.id e, Edge.source e, Edge.target e)) edges ->
          exportToBpmn number_to_string nodes edges' = Some bpmn).
Proof.
  unfold exportToBpmn, exportToMermaid. rewrite (nonempty_length nodes Hnodes).
  do 2 eexists. split; [reflexivity|]. split; [reflexivity|]. cbn [content].
  rewrite !fold_left_append.
  split; [|split].
  - intros node Hnode. split.
    + apply occurs_in_app_l, occurs_in_app_r.
      apply (join_map_occurs _ newline nodes node _ Hnode).
      cbv beta zeta.
      change (tpl "' name='") with (tpl "' " ++ tpl "name='").
      change (tpl "' />") with (dquote ++ tpl " />").
      rewrite <- !app_assoc.
      do 5 apply occurs_in_app_l.
      exists [], (tpl " />"). now rewrite <- !app_assoc.
    + apply occurs_in_app_r, occurs_in_app_l.
      apply (concat_map_occurs _ nodes node _ Hnode).
      cbv beta zeta. rewrite <- ?app_assoc.
      do 3 apply occurs_in_app_l.
      match goal with
      | |- occurs_in _ (dquote ++ ?t ++ dquote ++ ?r) =>
          exists [], r; now rewrite <- !app_assoc
      end.
  - intros edge l Hedge Hl Hne.
    apply occurs_in_app_l.
    apply (concat_map_occurs _ edges edge _ Hedge).
    cbv beta zeta. rewrite Hl. cbn [truthy_opt].
    destruct l as [|c l]; [congruence|]. cbn [truthy].
    rewrite <- ?app_assoc.
    do 3 apply occurs_in_app_l.
    match goal with
    | |- occurs_in _ (lit "|" ++ dquote ++ ?t ++ dquote ++ ?r) =>
        exists [], r; now rewrite <- !app_assoc
    end.
  - intros edges' Hsame.
    assert (Hflow : forall (g : jsstring * jsstring * jsstring -> jsstring),
               List.map (fun e => g (Edge.id e, Edge.source e, Edge.target e)) edges'
               = List.map (fun e => g (Edge.id e, Edge.source e, Edge.target e)) edges).
    { intros g.
      rewrite <- (map_map (fun e => (Edge.id e, Edge.source e, Edge.target e)) g edges').
      rewrite <- (map_map (fun e => (Edge.id e, Edge.source e, Edge.target e)) g edges).
      now rewrite Hsame. }
    assert (Hseq :
      List.map
        (fun edge =>
           tpl "    <bpmn:sequenceFlow id='" ++ Edge.id edge
           ++ tpl "' sourceRef='" ++ Edge.source edge
           ++ tpl "' targetRef='" ++ Edge.target edge ++ tpl "' />") edges'
      = List.map
        (fun edge =>
           tpl "    <bpmn:sequenceFlow id='" ++ Edge.id edge
           ++ tpl "' sourceRef='" ++ Edge.source edge
           ++ tpl "' targetRef='" ++ Edge.target edge ++ tpl "' />") edges).
    { exact (Hflow (fun '(i, src, tgt) =>
                      tpl "    <bpmn:sequenceFlow id='" ++ i
                      ++ tpl "' sourceRef='" ++ src
                      ++ tpl "' targetRef='" ++ tgt ++ tpl "' />")). }
    assert (Hdi :
      List.map
        (fun edge =>
           tpl "      <bpmndi:BPMNEdge id='" ++ Edge.id edge
           ++ tpl "_di' bpmnElement='" ++ Edge.id edge ++ tpl "'>"
           ++ newline
           ++ tpl "        <di:waypoint x='150' y='150' />" ++ newline
           ++ tpl "        <di:waypoint x='250' y='150' />" ++ newline
           ++ tpl "      </bpmndi:BPMNEdge>") edges'
      = List.map
        (fun edge =>
           tpl "      <bpmndi:BPMNEdge id='" ++ Edge.id edge
           ++ tpl "_di' bpmnElement='" ++ Edge.id edge ++ tpl "'>"
           ++ newline
           ++ tpl "        <di:waypoint x='150' y='150' />" ++ newline
           ++ tpl "        <di:waypoint x='250' y='150' />" ++ newline
           ++ tpl "      </bpmndi:BPMNEdge>") edges).
    { exact (Hflow (fun '(i, _, _) =>
                      tpl "      <bpmndi:BPMNEdge id='" ++ i
                      ++ tpl "_di' bpmnElement='" ++ i ++ tpl "'>"
                      ++ newline
                      ++ tpl "        <di:waypoint x='150' y='150' />" ++ newline
                      ++ tpl "        <di:waypoint x='250' y='150' />" ++ newline
                      ++ tpl "      </bpmndi:BPMNEdge>")). }
    now rewrite Hseq, Hdi.
Qed.

End ExportFacts.

(* ===================================================================== *)
(** * The theorems at the sample data *)
(* ===================================================================== *)

Lemma sample_nodes_nonempty : Samples.nodes <> [].
Proof. discriminate. Qed.

Lemma exportToJson_serializes_witness :
  exists d,
    ExportPanel.exportToJson Samples.nodes Samples.edges = Some d
    /\ List.map ExportPanel.ExportNode.type
         (ExportPanel.ExportData.nodes (ExportPanel.content d))
       = [lit "action"; lit "decision"; lit "decision"]
    /\ List.length (ExportPanel.ExportData.edges (ExportPanel.content d)) = 3%nat.
Proof.
  destruct (exportToJson_serializes Samples.nodes Samples.edges
              sample_nodes_nonempty) as (d & Hd & _ & _ & Hedges & _).
  exists d. split; [exact Hd|]. split; [|exact Hedges].
  vm_compute in Hd. injection Hd as <-. vm_compute. reflexivity.
Defined.

Lemma exportToMermaid_lines_witness :
  exists d,
    ExportPanel.exportToMermaid Samples.nodes Samples.edges = Some d
    /\ includes (ExportPanel.content d)
         (lit "    n2 -->|" ++ ExportPanel.dquote ++ lit "back to start"
            ++ ExportPanel.dquote ++ lit " n1" ++ newline) = true
    /\ includes (ExportPanel.content d) (lit "    n2 --> n3" ++ newline) = true.
Proof.
  destruct (exportToMermaid_lines Samples.nodes Samples.edges
              sample_nodes_nonempty) as (d & Hd & Hcontent).
  exists d. split; [exact Hd|].
  rewrite Hcontent. split; vm_compute; reflexivity.
Defined.

Lemma exportToBpmn_process_witness :
  exists d,
    ExportPanel.exportToBpmn Samples.print_number Samples.nodes Samples.edges
    = Some d
    /\ includes (ExportPanel.content d)
         (ExportPanel.tpl "    <bpmn:exclusiveGateway id='n3' name='Archive' />")
       = true.
Proof.
  destruct (exportToBpmn_process Samples.print_number Samples.nodes Samples.edges
              sample_nodes_nonempty) as (d & before & after & Hd & _ & _).
  exists d. split; [exact Hd|].
  vm_compute in Hd. injection Hd as <-. vm_compute. reflexivity.
Defined.

Lemma exporters_embed_text_verbatim_witness :
  exists bpmn mermaid,
    ExportPanel.exportToBpmn Samples.print_number Samples.nodes Samples.edges
    = Some bpmn
    /\ ExportPanel.exportToMermaid Samples.nodes Samples.edges = Some mermaid
    /\ occurs_in
         (ExportPanel.tpl "name='Register 'A&B' <request>'")
         (ExportPanel.content bpmn)
    /\ occurs_in
         (ExportPanel.tpl "'Register 'A&B' <request>'")
         (ExportPanel.content mermaid).
Proof.
  destruct (exporters_embed_text_verbatim Samples.print_number
              Samples.nodes Samples.edges sample_nodes_nonempty)
    as (bpmn & mermaid & Hb & Hm & Hnodes & _).
  exists bpmn, mermaid. split; [exact Hb|]. split; [exact Hm|].
  apply (Hnodes (reactFlowNode
                   (FlowNode.mk (lit "n1")
                      (lit "Register " ++ [34%N] ++ lit "A&B" ++ [34%N]
                         ++ lit " <request>")
                      (Some (lit "action")) (Some (lit "clerk")) None))).
  left. reflexivity.
Defined.

(** C10, as stated, fails for edge labels in the BPMN text: the label of the
    second sample edge occurs nowhere in it. *)
Lemma exportToBpmn_omits_edge_label :
  (exists edge,
     In edge Samples.edges /\ Edge.label edge = Some (lit "back to start"))
  /\ match ExportPanel.exportToBpmn Samples.print_number
             Samples.nodes Samples.edges with
     | Some d => ~ occurs_in (lit "back to start") (ExportPanel.content d)
     | None => False
     end.
Proof.
  split.
  - eexists. split; [right; left; reflexivity|reflexivity].
  - assert (H : exists d,
               ExportPanel.exportToBpmn Samples.print_number
                 Samples.nodes Samples.edges = Some d
               /\ includes (ExportPanel.content d) (lit "back to start") = false).
    { eexists. split; [reflexivity|vm_compute; reflexivity]. }
    destruct H as (d & -> & Hd). now apply excluded_not_occurs.
Qed.

(* ===================================================================== *)
(** * Runs on the sample data *)
(* ===================================================================== *)

Example string_functions :
  split_sentences (lit "Hi there. Go!? now") = [lit "Hi there"; lit " Go"; lit " now"]
  /\ split_sentences (lit ".a.") = [lit ""; lit "a"; lit ""]
  /\ split_sentences (lit "") = [lit ""]
  /\ trim (lit "  a b  ") = lit "a b"
  /\ indexOf (lit "abcabc") (lit "ca") = 2%Z
  /\ indexOf (lit "abc") (lit "x") = (-1)%Z
  /\ substring (lit "abcdef") 4 1 = lit "bcd"
  /\ substring_from (lit "abcdef") 9 = lit ""
  /\ of_index 120 = lit "120"
  /\ join (lit ", ") [lit "a"; lit "b"; lit "c"] = lit "a, b, c".
Proof. vm_compute. repeat split; reflexivity. Qed.

Example sentences_of_sample :
  List.map (fun s => (Highlight.startPos s, Highlight.endPos s))
           (Highlight.sentences_of Samples.text)
  = [(0, 8); (10, 16); (18, 22)]%Z.
Proof. vm_compute. reflexivity. Qed.

Example confident_scores :
  Highlight.confident 0.5%float = true
  /\ Highlight.confident 0.9%float = false
  /\ Highlight.confident 0%float = false.
Proof. vm_compute. repeat split; reflexivity. Qed.

Example processText_sample_ok :
  let w' := Eff.exec (App.processText Samples.api Samples.backend_ok
                                      Samples.stack_layout) Samples.fresh_app in
  List.map NodeObj.id (App.nodes (App.state w'))
  = [Some (lit "n1"); Some (lit "n2"); Some (lit "n3")]
  /\ List.map Edge.id (App.edges (App.state w'))
     = [lit "e-n1-n2-0"; lit "e-n2-n1-1"; lit "e-n2-n3-2"]
  /\ List.map (fun n => NodeData.isAction (RFNode.data n)) Samples.nodes
     = [Some true; Some false; Some false]
  /\ App.error (App.state w') = None
  /\ List.map Http.url (App.sent w') = [lit "http://127.0.0.1:8000/process-text"].
Proof. vm_compute. repeat split; reflexivity. Qed.

Example processText_sample_500 :
  let w' := Eff.exec (App.processText Samples.api Samples.backend_500
                                      Samples.stack_layout) Samples.fresh_app in
  App.nodes (App.state w') = []
  /\ App.edges (App.state w') = []
  /\ App.error (App.state w') = Some App.MSG_BACKEND
  /\ App.isLoading (App.state w') = false.
Proof. vm_compute. repeat split; reflexivity. Qed.

Example getLayoutedElements_sample_throws :
  getLayoutedElements Samples.failing_layout Samples.nodes Samples.edges
  = LayoutResult.mk (List.map NodeObj.Full Samples.nodes) Samples.edges.
Proof. reflexivity. Qed.

Example fetchModels_sample :
  let w' := Eff.exec (ModelSelector.fetchModels Samples.api Samples.models_backend
                                                (lit "")) ModelSelector.mounted in
  ModelSelector.modelChanges w' = [lit "model-a"]
  /\ ModelSelector.models (ModelSelector.state w') = Some Samples.models
  /\ List.map Http.url (ModelSelector.sent w') = [lit "http://127.0.0.1:8000/models"].
Proof. vm_compute. repeat split; reflexivity. Qed.

Example fetchModels_sample_without_list :
  let w' := Eff.exec (ModelSelector.fetchModels Samples.api
                        Scenarios.models_backend_without_list (lit ""))
                     ModelSelector.mounted in
  ModelSelector.models (ModelSelector.state w') = None
  /\ ModelSelector.error (ModelSelector.state w') = Some ModelSelector.MSG_MODELS
  /\ ModelSelector.modelChanges w' = []
  /\ ModelSelector.render (lit "") (ModelSelector.state w')
     = ModelSelector.RenderThrows.
Proof. vm_compute. repeat split; reflexivity. Qed.

Example exportToMermaid_sample :
  option_map ExportPanel.content
    (ExportPanel.exportToMermaid Samples.nodes Samples.edges)
  = Some
      (lit "graph TD" ++ newline
       ++ ExportPanel.tpl "    n1['Register 'A&B' <request>']" ++ newline
       ++ ExportPanel.tpl "    n2{'Complete?'}" ++ newline
       ++ ExportPanel.tpl "    n3{'Archive'}" ++ newline
       ++ ExportPanel.tpl "    n1 --> n2" ++ newline
       ++ ExportPanel.tpl "    n2 -->|'back to start' n1" ++ newline
       ++ ExportPanel.tpl "    n2 --> n3" ++ newline).
Proof. vm_compute. reflexivity. Qed.

Example handleDeleteFromContext_sample_edge :
  List.map Edge.id
    (App.edges (App.handleDeleteFromContext Samples.menu_on_edge))
  = [lit "e-n1-n2-0"; lit "e-n2-n3-2"]
  /\ List.length (App.nodes (App.handleDeleteFromContext Samples.menu_on_edge))
     = 3%nat.
Proof. vm_compute. repeat split; reflexivity. Qed.

(* ===================================================================== *)
(** * Sentences of the text *)
(* ===================================================================== *)

Section SentenceFacts.

Import Highlight.

Lemma starts_with_firstn (t s : jsstring) :
  starts_with t s = true -> firstn (List.length t) s = t.
Proof.
  revert s; induction t as [|a t IH]; intros [|b s]; simpl;
    try reflexivity; try discriminate.
  intros H. apply andb_true_iff in H as [Hab H].
  apply N.eqb_eq in Hab. subst b. f_equal. now apply IH.
Qed.

Lemma indexOf_from_first (s t : jsstring) :
  forall i, occurs_in t s ->
    exists k : nat,
      indexOf_from i s t = (i + Z.of_nat k)%Z
      /\ starts_with t (skipn k s) = true
      /\ forall j, (j < k)%nat -> starts_with t (skipn j s) = false.
Proof.
  induction s as [|c s IH]; intros i Hocc.
  - exists 0%nat. destruct Hocc as (p & q & H). symmetry in H.
    apply app_eq_nil in H as [-> H]. apply app_eq_nil in H as [-> ->].
    simpl. split; [lia|]. split; [reflexivity|]. intros j Hj. lia.
  - simpl indexOf_from. destruct (starts_with t (c :: s)) eqn:E.
    + exists 0%nat. split; [lia|]. split; [exact E|]. intros j Hj. lia.
    + destruct Hocc as ([|c' p] & q & H).
      * simpl in H. rewrite H, starts_with_app in E. discriminate.
      * injection H as -> ->.
        destruct (IH (i + 1)%Z) as (k & Hk & Hat & Hbefore); [now exists p, q|].
        exists (S k). split; [lia|]. split; [exact Hat|].
        intros [|j] Hj; [exact E|]. apply Hbefore. lia.
Qed.

Lemma substring_at_indexOf (s t : jsstring) :
  occurs_in t s ->
  substring s (indexOf s t) (indexOf s t + JsString.length t) = t.
Proof.
  intros Hocc.
  destruct (indexOf_from_first s t 0%Z Hocc) as (k & Hk & Hat & _).
  pose proof (indexOf_bounds s t Hocc) as [H0 H1].
  unfold indexOf in *. rewrite Hk in *. unfold substring.
  rewrite !clamp_in_range by (unfold JsString.length in *; lia).
  unfold JsString.length.
  rewrite Nat.min_l, Nat.max_r by lia.
  replace (Z.to_nat (0 + Z.of_nat k + Z.of_nat (List.length t))
           - Z.to_nat (0 + Z.of_nat k))%nat with (List.length t) by lia.
  replace (Z.to_nat (0 + Z.of_nat k)) with k by lia.
  now apply starts_with_firstn.
Qed.

Lemma sentence_text_occurs (fullText : jsstring) (st : Sentence) :
  In st (sentences_of fullText) ->
  exists piece,
    In piece (split_sentences fullText)
    /\ trim piece <> []
    /\ st = mkSentence (trim piece) (indexOf fullText (trim piece))
              (indexOf fullText (trim piece) + JsString.length (trim piece))
    /\ occurs_in (trim piece) fullText.
Proof.
  unfold sentences_of. intros H.
  apply in_map_iff in H as (piece & <- & Hpiece).
  apply filter_In in Hpiece as [Hpiece Hlen].
  exists piece. split; [exact Hpiece|]. split.
  - intros E. rewrite E in Hlen. discriminate.
  - split; [reflexivity|].
    eapply occurs_in_trans; [apply trim_occurs_in|].
    now apply split_sentences_occurs.
Qed.

Lemma sentence_delimits (fullText : jsstring) (st : Sentence) :
  In st (sentences_of fullText) ->
  substring fullText (startPos st) (endPos st) = text st
  /\ (0 <= startPos st)%Z
  /\ forall j, (j < Z.to_nat (startPos st))%nat ->
       starts_with (text st) (skipn j fullText) = false.
Proof.
  intros Hst.
  destruct (sentence_text_occurs fullText st Hst) as (piece & _ & _ & -> & Hocc).
  cbn [text startPos endPos].
  split; [now apply substring_at_indexOf|].
  destruct (indexOf_from_first fullText (trim piece) 0%Z Hocc)
    as (k & Hk & _ & Hbefore).
  unfold indexOf. rewrite Hk. split; [lia|].
  intros j Hj. apply Hbefore. lia.
Qed.

(** X1.  The positions stored with a sentence delimit its text in
    [fullText], and they are those of the first place where that text
    occurs. *)
Theorem sentences_delimit_their_text (fullText : jsstring) :
  Forall
    (fun st =>
       substring fullText (startPos st) (endPos st) = text st
       /\ (0 <= startPos st)%Z
       /\ forall j, (j < Z.to_nat (startPos st))%nat ->
            starts_with (text st) (skipn j fullText) = false)
    (sentences_of fullText).
Proof.
  apply Forall_forall. intros st Hst. now apply (sentence_delimits fullText).
Qed.

Lemma occurs_in_In (t s : jsstring) (c : code_unit) :
  occurs_in t s -> In c t -> In c s.
Proof.
  intros (p & q & ->) H. apply in_or_app. right. apply in_or_app. now left.
Qed.

Lemma trimStart_idem (s : jsstring) : trimStart (trimStart s) = trimStart s.
Proof.
  induction s as [|c s IH]; simpl; [reflexivity|].
  destruct (is_white_space c) eqn:E; [exact IH|]. simpl. now rewrite E.
Qed.

Lemma trimStart_length (s : jsstring) :
  (List.length (trimStart s) <= List.length s)%nat.
Proof.
  destruct (trimStart_suffix s) as [ws H].
  rewrite H at 2. rewrite length_app. lia.
Qed.

Lemma trimStart_fixed_prefix (p q : jsstring) :
  trimStart (p ++ q) = p ++ q -> trimStart p = p.
Proof.
  destruct p as [|c p]; simpl; [reflexivity|].
  destruct (is_white_space c); [|reflexivity].
  intros H. pose proof (trimStart_length (p ++ q)) as Hlen.
  rewrite H in Hlen. simpl in Hlen. lia.
Qed.

Lemma trim_idem (s : jsstring) : trim (trim s) = trim s.
Proof.
  unfold trim.
  destruct (trimEnd_prefix (trimStart s)) as [ws Hws].
  assert (Hfix : trimStart (trimEnd (trimStart s)) = trimEnd (trimStart s)).
  { apply (trimStart_fixed_prefix _ ws). rewrite <- Hws. apply trimStart_idem. }
  rewrite Hfix. unfold trimEnd at 1 2.
  now rewrite rev_involutive, trimStart_idem.
Qed.

Lemma split_go_no_terminator (s : jsstring) :
  forall in_sep cur p,
    (forall c, In c cur -> is_sentence_end c = false) ->
    In p (split_go in_sep cur s) ->
    forall c, In c p -> is_sentence_end c = false.
Proof.
  induction s as [|a s IH]; intros in_sep cur p Hcur; simpl.
  - intros [<-|[]] c Hc. apply Hcur. now apply in_rev.
  - destruct (is_sentence_end a) eqn:Ea.
    + assert (Hnil : forall c : code_unit, In c [] -> is_sentence_end c = false)
        by (intros c []).
      destruct in_sep.
      * now apply IH.
      * intros [<-|H].
        -- intros c Hc. apply Hcur. now apply in_rev.
        -- now apply (IH true [] p Hnil).
    + apply IH. intros c [<-|Hc]; [exact Ea|now apply Hcur].
Qed.

Lemma sentence_trimmed (fullText : jsstring) (st : Sentence) :
  In st (sentences_of fullText) ->
  text st <> []
  /\ trim (text st) = text st
  /\ forallb (fun c => negb (is_sentence_end c)) (text st) = true.
Proof.
  intros Hst.
  destruct (sentence_text_occurs fullText st Hst)
    as (piece & Hpiece & Hne & -> & _).
  cbn [text]. split; [exact Hne|]. split; [apply trim_idem|].
  apply forallb_forall. intros c Hc. apply negb_true_iff.
  apply (split_go_no_terminator fullText false [] piece); try assumption.
  - intros c' [].
  - now apply (occurs_in_In (trim piece) piece c (trim_occurs_in piece)).
Qed.

(** X2.  The text of every sentence is not empty, carries no white space at
    either end, and holds none of the terminators [.], [!], [?]. *)
Theorem sentences_are_trimmed (fullText : jsstring) :
  Forall
    (fun st =>
       text st <> []
       /\ trim (text st) = text st
       /\ forallb (fun c => negb (is_sentence_end c)) (text st) = true)
    (sentences_of fullText).
Proof.
  apply Forall_forall. intros st Hst. now apply (sentence_trimmed fullText).
Qed.

Lemma filter_none {A : Type} (f : A -> bool) (l : list A) :
  (forall x, In x l -> f x = false) -> List.filter f l = [].
Proof.
  induction l as [|x l IH]; simpl; [reflexivity|].
  intros H. rewrite (H x (or_introl eq_refl)). apply IH.
  intros y Hy. apply H. now right.
Qed.

Lemma blank_text_has_no_sentence (fullText : jsstring) :
  forallb (fun c => is_white_space c || is_sentence_end c) fullText = true ->
  sentences_of fullText = [].
Proof.
  intros Hblank. unfold sentences_of.
  assert (Hfilter :
    List.filter (fun s => (0 <? JsString.length (trim s))%Z)
                (split_sentences fullText) = []).
  { apply filter_none. intros piece Hpiece.
    assert (Hws : forallb is_white_space piece = true).
    { apply forallb_forall. intros c Hc.
      pose proof (split_go_no_terminator fullText false [] piece
                    (fun c' (H : In c' []) => match H with end) Hpiece c Hc) as Hsep.
      pose proof (proj1 (forallb_forall _ _) Hblank c
                    (occurs_in_In piece fullText c
                       (split_sentences_occurs fullText piece Hpiece) Hc)) as H.
      cbv beta in H. rewrite Hsep, orb_false_r in H. exact H. }
    rewrite (trim_all_white piece Hws). reflexivity. }
  now rewrite Hfilter.
Qed.

Variable fuse_search :
  Fuse.Options -> list Sentence -> jsstring -> list (Fuse.Result Sentence).

(** X3.  On a text made of white space and terminators only there is no
    sentence, and [findHighlightRange] answers [null] for every node text,
    whatever the search would report. *)
Theorem findHighlightRange_blank_text (fullText : jsstring)
  (nodeText : option jsstring)
  (Hblank : forallb (fun c => is_white_space c || is_sentence_end c) fullText
            = true) :
  findHighlightRange fuse_search fullText nodeText = None.
Proof.
  unfold findHighlightRange.
  destruct nodeText as [t|]; [|reflexivity].
  destruct (negb (truthy (trim t))); [reflexivity|].
  now rewrite (blank_text_has_no_sentence fullText Hblank).
Qed.

(** X4.  [findHighlightRange] answers the positions of the first hit only,
    and only when the score of that hit is neither zero nor NaN: a hit with
    score 0 is turned into score 1 by [score || 1] and is rejected. *)
Theorem findHighlightRange_first_hit (fullText : jsstring)
  (nodeText : option jsstring) :
  match findHighlightRange fuse_search fullText nodeText with
  | Some (start, end_) =>
      exists t r0 rest,
        nodeText = Some t
        /\ fuse_search fuse_options (sentences_of fullText) (trim t) = r0 :: rest
        /\ start = startPos (Fuse.item r0)
        /\ end_ = endPos (Fuse.item r0)
        /\ PrimFloat.eqb (Fuse.score r0) 0%float = false
        /\ PrimFloat.eqb (Fuse.score r0) (Fuse.score r0) = true
  | None => True
  end.
Proof.
  unfold findHighlightRange.
  destruct nodeText as [t|]; [|exact I].
  destruct (negb (truthy (trim t))); [exact I|].
  destruct (List.length (sentences_of fullText) =? 0)%nat; [exact I|].
  destruct (fuse_search fuse_options (sentences_of fullText) (trim t))
    as [|r0 rest] eqn:E; [exact I|].
  destruct (confident (Fuse.score r0)) eqn:Hc; [|exact I].
  exists t, r0, rest. repeat (split; [reflexivity|]).
  unfold confident, or_one in Hc.
  destruct (PrimFloat.eqb (Fuse.score r0) 0%float);
    [vm_compute in Hc; discriminate|].
  destruct (PrimFloat.eqb (Fuse.score r0) (Fuse.score r0));
    [now split|vm_compute in Hc; discriminate].
Qed.

(** X5.  The overlay of [TextEditor] is absent when no node carries the
    selected id; and, Fuse returning elements of the collection it was
    given, whenever it is present its three pieces make up the text again,
    the highlighted piece being a sentence of the text: not empty, without
    white space at its ends and without terminators. *)
Theorem highlightOverlay_cuts_text
  (Hfuse : Fuse.returns_items fuse_search)
  (fullText : jsstring) (nodes : list NodeObj.t)
  (selectedNodeId : option jsstring) :
  ((forall sid, selectedNodeId = Some sid ->
                List.find (App.node_id_is sid) nodes = None) ->
   highlightOverlay fuse_search fullText nodes selectedNodeId = None)
  /\ (forall ov,
        highlightOverlay fuse_search fullText nodes selectedNodeId = Some ov ->
        before ov ++ highlighted ov ++ after ov = fullText
        /\ highlighted ov <> []
        /\ trim (highlighted ov) = highlighted ov
        /\ forallb (fun c => negb (is_sentence_end c)) (highlighted ov) = true).
Proof.
  unfold highlightOverlay. split.
  - intros Hnone. destruct selectedNodeId as [sid|]; [|reflexivity].
    destruct (negb (truthy sid)); [reflexivity|].
    now rewrite (Hnone sid eq_refl).
  - intros ov. destruct selectedNodeId as [sid|]; [|discriminate].
    destruct (negb (truthy sid)); [discriminate|].
    destruct (findHighlightRange fuse_search fullText _) as [[start end_]|] eqn:E;
      [|discriminate].
    intros [= <-]. cbn [before highlighted after].
    destruct (findHighlightRange_is_sentence fuse_search fullText _ start end_
                Hfuse E) as (st & Hst & -> & ->).
    destruct (sentence_delimits fullText st Hst) as (Hsub & _ & _).
    pose proof (sentences_of_in_range fullText st Hst) as Hrange.
    split; [apply substring_partition; lia|].
    rewrite Hsub. now apply (sentence_trimmed fullText).
Qed.

End SentenceFacts.

Lemma findHighlightRange_blank_text_witness :
  Highlight.findHighlightRange Samples.first_hit (lit " ...  !? ")
    (Some (lit "Go now"))
  = None.
Proof.
  apply (findHighlightRange_blank_text Samples.first_hit (lit " ...  !? ")
           (Some (lit "Go now"))).
  vm_compute. reflexivity.
Defined.

Lemma highlightOverlay_cuts_text_witness :
  exists ov,
    Highlight.highlightOverlay Samples.first_hit Samples.text
      (List.map NodeObj.Full Samples.nodes) (Some (lit "n1")) = Some ov
    /\ Highlight.highlighted ov = lit "Hi there"
    /\ Highlight.before ov ++ Highlight.highlighted ov ++ Highlight.after ov
       = Samples.text.
Proof.
  eexists. split; [vm_compute; reflexivity|]. split; [reflexivity|].
  apply (proj2 (highlightOverlay_cuts_text Samples.first_hit
                  first_hit_returns_items Samples.text
                  (List.map NodeObj.Full Samples.nodes) (Some (lit "n1")))).
  vm_compute. reflexivity.
Defined.

(* ===================================================================== *)
(** * More on [processText] and [getLayoutedElements] *)
(* ===================================================================== *)

Section BuildFacts.

Import App.

Variable API_URL : jsstring.
Variable backend : Http.Request -> Http.FetchResult FlowData.t.
Variable elk_layout : Elk.Graph -> Elk.Outcome.

(** X6.  The build button is disabled while a request is running and while
    the trimmed text is empty; a click on the enabled button therefore never
    ends in the message asking for a text: either no model is selected, and
    that is reported without a request, or exactly one request is sent. *)
Theorem enabled_button_never_asks_for_text (w : World)
  (Henabled : TextEditor.buildDisabled (isLoading (state w)) (text (state w))
              = false) :
  let w' := Eff.exec (processText API_URL backend elk_layout) w in
  error (state w') <> Some MSG_ENTER_TEXT
  /\ (if truthy (selectedModel (state w))
      then sent w'
           = sent w ++ [process_text_request API_URL (text (state w))
                                             (selectedModel (state w))]
      else sent w' = sent w /\ error (state w') = Some MSG_SELECT_MODEL).
Proof.
  cbv zeta. unfold TextEditor.buildDisabled in Henabled.
  apply orb_false_iff in Henabled as [_ Htext].
  apply negb_false_iff in Htext.
  rewrite processText_exec. cbv zeta. rewrite Htext. cbn [negb].
  destruct (truthy (selectedModel (state w))); cbn [negb].
  - destruct (backend _) as [|r]; [split; [discriminate|reflexivity]|].
    destruct (negb (Http.ok r)); [split; [discriminate|reflexivity]|].
    destruct (Http.json r); split; try discriminate; reflexivity.
  - split; [discriminate|]. split; reflexivity.
Qed.

(** X7.  Whatever happens, [processText] leaves the text, the selected
    model, the selected node, the edit mode and the context menu as they
    were, and sends at most one request. *)
Theorem processText_frame (w : World) :
  let w' := Eff.exec (processText API_URL backend elk_layout) w in
  text (state w') = text (state w)
  /\ selectedModel (state w') = selectedModel (state w)
  /\ selectedNodeId (state w') = selectedNodeId (state w)
  /\ isEditMode (state w') = isEditMode (state w)
  /\ contextMenu (state w') = contextMenu (state w)
  /\ (sent w' = sent w \/ exists req, sent w' = sent w ++ [req]).
Proof.
  cbv zeta. rewrite processText_exec. cbv zeta.
  destruct (negb (truthy (trim (text (state w)))));
    [repeat split; now left|].
  destruct (negb (truthy (selectedModel (state w))));
    [repeat split; now left|].
  destruct (backend _) as [|r]; [repeat split; right; now eexists|].
  destruct (negb (Http.ok r)); [repeat split; right; now eexists|].
  destruct (Http.json r); repeat split; right; now eexists.
Qed.

Lemma reactFlowNodes_at_origin (data : FlowData.t) :
  Forall (fun n => RFNode.position n = XYPosition.mk 0%float 0%float)
         (reactFlowNodes data).
Proof.
  unfold reactFlowNodes. apply Forall_forall. intros n Hn.
  apply in_map_iff in Hn as (fn & <- & _). reflexivity.
Qed.

(** X8.  When the response is read successfully but ELK throws, or returns
    a graph without children, the nodes stored are the nodes mapped from the
    response, one per response node and in order, all at the origin, and
    the edges stored are the mapped edges. *)
Theorem processText_without_layout (w : World) (r : Http.Response FlowData.t)
  (data : FlowData.t)
  (Htext : truthy (trim (text (state w))) = true)
  (Hmodel : truthy (selectedModel (state w)) = true)
  (Hresp : backend (process_text_request API_URL (text (state w))
                                         (selectedModel (state w)))
           = Http.Responded r)
  (Hok : Http.ok r = true)
  (Hjson : Http.json r = Some data)
  (Hlayout :
     match elk_layout (elk_graph (reactFlowNodes data) (reactFlowEdges data)) with
     | Elk.Throws => True
     | Elk.Returns g =>
         Elk.out_children g = None \/ Elk.out_children g = Some []
     end) :
  let w' := Eff.exec (processText API_URL backend elk_layout) w in
  nodes (state w') = List.map NodeObj.Full (reactFlowNodes data)
  /\ List.map NodeObj.id (nodes (state w'))
     = List.map (fun n => Some (FlowNode.id n)) (FlowData.nodes data)
  /\ Forall (fun n => NodeObj.position n = XYPosition.mk 0%float 0%float)
            (nodes (state w'))
  /\ edges (state w') = reactFlowEdges data
  /\ error (state w') = None.
Proof.
  cbv zeta. rewrite processText_exec. cbv zeta.
  rewrite Htext, Hmodel, Hresp, Hok, Hjson. cbn [negb].
  assert (Hnodes :
    (if (0 <? List.length
                (LayoutResult.nodes
                   (getLayoutedElements elk_layout (reactFlowNodes data)
                                        (reactFlowEdges data))))%nat
     then LayoutResult.nodes
            (getLayoutedElements elk_layout (reactFlowNodes data)
                                 (reactFlowEdges data))
     else List.map NodeObj.Full (reactFlowNodes data))
    = List.map NodeObj.Full (reactFlowNodes data)).
  { unfold getLayoutedElements.
    destruct (elk_layout _) as [|g]; cbn.
    - now destruct (List.length (List.map NodeObj.Full (reactFlowNodes data))).
    - destruct Hlayout as [-> | ->]; reflexivity. }
  rewrite Hnodes. cbn.
  split; [reflexivity|]. split.
  - unfold reactFlowNodes. rewrite !map_map. reflexivity.
  - split; [|split; reflexivity].
    apply Forall_forall. intros n Hn.
    apply in_map_iff in Hn as (n' & <- & Hn').
    exact (proj1 (Forall_forall _ _) (reactFlowNodes_at_origin data) n' Hn').
Qed.

End BuildFacts.

Section OrderFacts.

Variable elk_layout : Elk.Graph -> Elk.Outcome.

Lemma find_self_distinct (nodes : list RFNode.t) (n : RFNode.t) :
  NoDup (List.map RFNode.id nodes) ->
  In n nodes ->
  List.find (fun m => JsString.eqb (RFNode.id m) (RFNode.id n)) nodes = Some n.
Proof.
  induction nodes as [|m nodes IH]; simpl; [intros _ []|].
  intros Hnd [->|Hn].
  - now rewrite eqb_refl.
  - inversion Hnd as [|? ? Hnotin Hnd']; subst.
    destruct (JsString.eqb (RFNode.id m) (RFNode.id n)) eqn:E.
    + apply eqb_eq in E. exfalso. apply Hnotin. rewrite E. now apply in_map.
    + now apply IH.
Qed.

Lemma layout_in_order (all : list RFNode.t) :
  forall (nodes : list RFNode.t) (cs : list Elk.ChildOut),
    (forall n, In n nodes ->
       List.find (fun m => JsString.eqb (RFNode.id m) (RFNode.id n)) all = Some n) ->
    List.map Elk.child_id cs = List.map RFNode.id nodes ->
    List.map
      (fun c =>
         spread_position
           (List.find (fun m => JsString.eqb (RFNode.id m) (Elk.child_id c)) all)
           (XYPosition.mk (Elk.x c) (Elk.y c)))
      cs
    = List.map
        (fun nc =>
           NodeObj.Full
             (RFNode.with_position (fst nc)
                (XYPosition.mk (Elk.x (snd nc)) (Elk.y (snd nc)))))
        (List.combine nodes cs).
Proof.
  induction nodes as [|n nodes IH]; intros [|c cs] Hfind Hids;
    try discriminate; [reflexivity|].
  simpl in Hids. injection Hids as Hid Hrest.
  simpl. rewrite Hid, (Hfind n (or_introl eq_refl)). cbn [spread_position].
  f_equal. apply IH; [|exact Hrest].
  intros m Hm. apply Hfind. now right.
Qed.

(** X9.  When the node ids are pairwise distinct and ELK returns one child
    per node, in the order of the nodes, [getLayoutedElements] returns the
    same nodes in the same order, each with only its position replaced by
    the coordinates of its child: no node is lost or repeated. *)
Theorem getLayoutedElements_keeps_order (nodes : list RFNode.t)
  (edges : list Edge.t) (g : Elk.Layouted) (cs : list Elk.ChildOut)
  (Hdistinct : NoDup (List.map RFNode.id nodes))
  (Hreturns : elk_layout (elk_graph nodes edges) = Elk.Returns g)
  (Hchildren : Elk.out_children g = Some cs)
  (Hids : List.map Elk.child_id cs = List.map RFNode.id nodes) :
  let r := getLayoutedElements elk_layout nodes edges in
  LayoutResult.nodes r
  = List.map
      (fun nc =>
         NodeObj.Full
           (RFNode.with_position (fst nc)
              (XYPosition.mk (Elk.x (snd nc)) (Elk.y (snd nc)))))
      (List.combine nodes cs)
  /\ List.length (LayoutResult.nodes r) = List.length nodes
  /\ List.map NodeObj.id (LayoutResult.nodes r)
     = List.map (fun n => Some (RFNode.id n)) nodes.
Proof.
  cbv zeta. unfold getLayoutedElements. rewrite Hreturns, Hchildren. cbn.
  assert (Hlen : List.length cs = List.length nodes).
  { rewrite <- (length_map Elk.child_id cs), Hids. apply length_map. }
  rewrite (layout_in_order nodes nodes cs); [|
    intros n Hn; now apply find_self_distinct | exact Hids].
  split; [reflexivity|]. split.
  - rewrite length_map, length_combine. lia.
  - rewrite map_map. cbn.
    clear Hreturns Hchildren Hdistinct Hids.
    revert cs Hlen. induction nodes as [|n nodes IH]; intros [|c cs] Hlen;
      try discriminate; [reflexivity|].
    simpl. f_equal. apply IH. simpl in Hlen. lia.
Qed.

End OrderFacts.

Lemma getLayoutedElements_keeps_order_witness :
  List.map NodeObj.position
    (LayoutResult.nodes
       (getLayoutedElements Samples.stack_layout Samples.nodes Samples.edges))
  = [ XYPosition.mk 40%float 120%float;
      XYPosition.mk 40%float 120%float;
      XYPosition.mk 40%float 120%float ]
  /\ List.length
       (LayoutResult.nodes
          (getLayoutedElements Samples.stack_layout Samples.nodes Samples.edges))
     = List.length Samples.nodes.
Proof.
  split; [vm_compute; reflexivity|].
  refine (proj1 (proj2 (getLayoutedElements_keeps_order Samples.stack_layout
                          Samples.nodes Samples.edges _ _ _ eq_refl eq_refl _))).
  - repeat constructor; simpl; intuition discriminate.
  - reflexivity.
Defined.

Lemma processText_without_layout_witness :
  App.nodes
    (App.state
       (Eff.exec (App.processText Samples.api Samples.backend_ok
                                  Samples.failing_layout) Samples.fresh_app))
  = List.map NodeObj.Full Samples.nodes.
Proof.
  exact (proj1 (processText_without_layout Samples.api Samples.backend_ok
                  Samples.failing_layout Samples.fresh_app
                  (Http.mkResponse 200 (Some Samples.flow)) Samples.flow
                  eq_refl eq_refl eq_refl eq_refl eq_refl I)).
Defined.

Lemma enabled_button_never_asks_for_text_witness :
  TextEditor.buildDisabled (App.isLoading (App.state Samples.fresh_app))
                           (App.text (App.state Samples.fresh_app)) = false
  /\ App.error
       (App.state
          (Eff.exec (App.processText Samples.api Samples.backend_500
                                     Samples.stack_layout) Samples.fresh_app))
     <> Some App.MSG_ENTER_TEXT.
Proof.
  split; [reflexivity|].
  exact (proj1 (enabled_button_never_asks_for_text Samples.api
                  Samples.backend_500 Samples.stack_layout Samples.fresh_app
                  eq_refl)).
Defined.

(* ===================================================================== *)
(** * Editing through the context menu *)
(* ===================================================================== *)

Section EditFacts.

Import App AppHandlers.

Variable prompt : UiText -> jsstring -> option jsstring.

(** The state in which [handleEditFromContext] ends once its guards are
    passed. *)
Lemma handleEditFromContext_run (s : State) (menu : ContextMenu)
  (node : RFNode.t) :
  contextMenu s = Some menu ->
  target menu = TargetNode ->
  isEditMode s = true ->
  List.find (node_id_is (menu_id menu)) (nodes s) = Some (NodeObj.Full node) ->
  handleEditFromContext prompt s
  = setContextMenu None
      match prompt MSG_PROMPT (NodeData.text (RFNode.data node)) with
      | Some next =>
          if JsString.eqb next (NodeData.text (RFNode.data node)) then s
          else
            setNodes
              (List.map
                 (fun n =>
                    match n with
                    | NodeObj.Full n' =>
                        if JsString.eqb (RFNode.id n') (menu_id menu)
                        then NodeObj.Full (renamed n' next)
                        else n
                    | NodeObj.PositionOnly _ => n
                    end))
              s
      | None => s
      end.
Proof.
  intros Hmenu Htarget Hedit Hfind. unfold handleEditFromContext.
  rewrite Hmenu, Htarget, Hedit, Hfind. cbn [negb].
  destruct (prompt _ _) as [next|]; [|reflexivity].
  destruct (JsString.eqb next _); cbn [negb]; [reflexivity|].
  unfold setContextMenu, setNodes. cbn. f_equal.
  apply map_ext. intros [n'|p]; [|reflexivity].
  now destruct (JsString.eqb (RFNode.id n') (menu_id menu)).
Qed.

(** X10.  With the menu open on a node in edit mode, and the user entering
    a text different from the current one, [handleEditFromContext] gives
    the new text to every node carrying the menu's id, both as [data.text]
    and as the label shown, and keeps its id, type, position, style, actor,
    action flag and source span; every other node, and every edge, stays as
    it is, and the menu is closed. *)
Theorem handleEditFromContext_renames (s : State) (menu : ContextMenu)
  (node : RFNode.t) (next : jsstring)
  (Hmenu : contextMenu s = Some menu)
  (Htarget : target menu = TargetNode)
  (Hedit : isEditMode s = true)
  (Hfind : List.find (node_id_is (menu_id menu)) (nodes s)
           = Some (NodeObj.Full node))
  (Hanswer : prompt MSG_PROMPT (NodeData.text (RFNode.data node)) = Some next)
  (Hnew : next <> NodeData.text (RFNode.data node)) :
  let s' := handleEditFromContext prompt s in
  Forall2
    (fun old new =>
       match old with
       | NodeObj.Full n =>
           if JsString.eqb (RFNode.id n) (menu_id menu) then
             exists n',
               new = NodeObj.Full n'
               /\ NodeData.text (RFNode.data n') = next
               /\ CustomNodeContent.label (NodeData.label (RFNode.data n')) = next
               /\ RFNode.id n' = RFNode.id n
               /\ RFNode.type n' = RFNode.type n
               /\ RFNode.position n' = RFNode.position n
               /\ RFNode.style n' = RFNode.style n
               /\ NodeData.actor (RFNode.data n') = NodeData.actor (RFNode.data n)
               /\ NodeData.isAction (RFNode.data n')
                  = NodeData.isAction (RFNode.data n)
               /\ NodeData.sourceSpan (RFNode.data n')
                  = NodeData.sourceSpan (RFNode.data n)
           else new = old
       | NodeObj.PositionOnly _ => new = old
       end)
    (nodes s) (nodes s')
  /\ edges s' = edges s
  /\ contextMenu s' = None.
Proof.
  cbv zeta.
  rewrite (handleEditFromContext_run s menu node Hmenu Htarget Hedit Hfind).
  rewrite Hanswer.
  destruct (JsString.eqb next (NodeData.text (RFNode.data node))) eqn:E;
    [apply eqb_eq in E; contradiction|].
  cbn. split; [|split; reflexivity].
  clear Hfind. induction (nodes s) as [|n l IH]; [constructor|].
  simpl. constructor; [|exact IH].
  destruct n as [n|p]; [|reflexivity].
  destruct (JsString.eqb (RFNode.id n) (menu_id menu)); [|reflexivity].
  exists (renamed n next). now repeat split.
Qed.

(** X11.  [handleEditFromContext] never changes the edges, nor the number,
    the order, the ids or the positions of the nodes, nor any other cell of
    the state but the context menu; and it either closes the menu or
    returns the state untouched (when no menu is open, the menu is on an
    edge, edit mode is off, or no node carries the menu's id). *)
Theorem handleEditFromContext_frame (s : State) :
  let s' := handleEditFromContext prompt s in
  edges s' = edges s
  /\ List.map NodeObj.id (nodes s') = List.map NodeObj.id (nodes s)
  /\ List.map NodeObj.position (nodes s') = List.map NodeObj.position (nodes s)
  /\ text s' = text s
  /\ error s' = error s
  /\ isLoading s' = isLoading s
  /\ selectedNodeId s' = selectedNodeId s
  /\ isEditMode s' = isEditMode s
  /\ selectedModel s' = selectedModel s
  /\ (contextMenu s' = None \/ s' = s)
  /\ (contextMenu s = None \/ isEditMode s = false ->
      s' = s).
Proof.
  cbv zeta.
  assert (Hguard : contextMenu s = None \/ isEditMode s = false ->
                   handleEditFromContext prompt s = s).
  { unfold handleEditFromContext. intros [-> | ->]; [reflexivity|].
    destruct (contextMenu s) as [menu|]; [|reflexivity].
    now destruct (target menu). }
  destruct (contextMenu s) as [menu|] eqn:Hmenu;
    [|rewrite Hguard by (now left); repeat split; auto].
  destruct (isEditMode s) eqn:Hedit;
    [|rewrite Hguard by (now right); repeat split; auto].
  destruct (target menu) eqn:Htarget;
    [|unfold handleEditFromContext; rewrite Hmenu, Htarget;
      repeat split; auto; intros [H|H]; discriminate].
  destruct (List.find (node_id_is (menu_id menu)) (nodes s)) as [[node|p]|] eqn:Hfind;
    [|unfold handleEditFromContext; rewrite Hmenu, Htarget, Hedit, Hfind;
      repeat split; auto; intros [H|H]; discriminate ..].
  rewrite (handleEditFromContext_run s menu node Hmenu Htarget Hedit Hfind).
  assert (Hids :
    forall next l,
      List.map NodeObj.id
        (List.map
           (fun n =>
              match n with
              | NodeObj.Full n' =>
                  if JsString.eqb (RFNode.id n') (menu_id menu)
                  then NodeObj.Full (renamed n' next)
                  else n
              | NodeObj.PositionOnly _ => n
              end) l)
      = List.map NodeObj.id l
      /\ List.map NodeObj.position
           (List.map
              (fun n =>
                 match n with
                 | NodeObj.Full n' =>
                     if JsString.eqb (RFNode.id n') (menu_id menu)
                     then NodeObj.Full (renamed n' next)
                     else n
                 | NodeObj.PositionOnly _ => n
                 end) l)
         = List.map NodeObj.position l).
  { intros next l. rewrite !map_map. split; apply map_ext; intros [n'|p];
      try reflexivity;
      now destruct (JsString.eqb (RFNode.id n') (menu_id menu)). }
  destruct (prompt _ _) as [next|].
  - destruct (JsString.eqb next _).
    + cbn. repeat split; auto. intros [H|H]; discriminate.
    + cbn. destruct (Hids next (nodes s)) as [H1 H2].
      repeat split; auto. intros [H|H]; discriminate.
  - cbn. repeat split; auto. intros [H|H]; discriminate.
Qed.

End EditFacts.

Lemma handleEditFromContext_renames_witness :
  List.map NodeObj.text
    (App.nodes
       (AppHandlers.handleEditFromContext
          Scenarios.rename_prompt Samples.menu_on_node))
  = [ Some (lit "Register " ++ [34%N] ++ lit "A&B" ++ [34%N] ++ lit " <request>");
      Some (lit "Is it complete?");
      Some (lit "Archive") ]
  /\ App.contextMenu
       (AppHandlers.handleEditFromContext
          (fun _ _ => Some (lit "Is it complete?")) Samples.menu_on_node)
     = None.
Proof.
  split; [vm_compute; reflexivity|].
  refine (proj2 (proj2 (handleEditFromContext_renames
                          Scenarios.rename_prompt
                          Samples.menu_on_node
                          (App.mkMenu 10%float 20%float App.TargetNode (lit "n2"))
                          _ (lit "Is it complete?")
                          eq_refl eq_refl eq_refl eq_refl eq_refl _))).
  discriminate.
Defined.

(* ===================================================================== *)
(** * Invariants of the diagram *)
(* ===================================================================== *)

Section InvariantFacts.

Import App AppHandlers Diagram.

Variable prompt : UiText -> jsstring -> option jsstring.
Variable elk_layout : Elk.Graph -> Elk.Outcome.

Lemma renamed_consistent (n : RFNode.t) (next : jsstring) :
  label_consistent (renamed n next).
Proof. now repeat split. Qed.

Lemma edited_nodes_consistent (s : State) :
  Forall obj_label_consistent (nodes s) ->
  Forall obj_label_consistent (nodes (handleEditFromContext prompt s)).
Proof.
  intros Hall. unfold handleEditFromContext.
  destruct (contextMenu s) as [menu|]; [|exact Hall].
  destruct (target menu); [|exact Hall].
  destruct (negb (isEditMode s)); [exact Hall|].
  destruct (List.find _ _) as [[node|p]|]; try exact Hall.
  destruct (prompt _ _) as [next|]; [|exact Hall].
  destruct (negb (JsString.eqb next _)); [|exact Hall].
  cbn. apply Forall_forall. intros n Hn.
  apply in_map_iff in Hn as (n0 & <- & Hn0).
  pose proof (proj1 (Forall_forall _ _) Hall n0 Hn0) as H0.
  destruct n0 as [n'|p]; [|exact I].
  destruct (negb (JsString.eqb (RFNode.id n') (menu_id menu))); [exact H0|].
  apply renamed_consistent.
Qed.

(** X12.  In every node made by [processText] the label element shown
    agrees with the data stored beside it (same text, same actor, same
    action flag); the layout step keeps this, whatever ELK answers, and so
    do editing and deleting through the context menu. *)
Theorem label_agrees_with_data :
  (forall data, Forall label_consistent (reactFlowNodes data))
  /\ (forall nodes edges,
        Forall label_consistent nodes ->
        Forall obj_label_consistent
               (LayoutResult.nodes (getLayoutedElements elk_layout nodes edges)))
  /\ (forall s,
        Forall obj_label_consistent (nodes s) ->
        Forall obj_label_consistent (nodes (handleEditFromContext prompt s))
        /\ Forall obj_label_consistent (nodes (handleDeleteFromContext s))).
Proof.
  split; [|split].
  - intros data. unfold reactFlowNodes. apply Forall_forall. intros n Hn.
    apply in_map_iff in Hn as (fn & <- & _). now repeat split.
  - intros nodes edges Hall. unfold getLayoutedElements.
    destruct (elk_layout _) as [|g]; cbn; apply Forall_forall; intros n Hn;
      apply in_map_iff in Hn as (x & <- & Hx).
    + exact (proj1 (Forall_forall _ _) Hall x Hx).
    + destruct (List.find _ nodes) as [m|] eqn:E; [|exact I].
      apply find_some in E as [Hm _].
      exact (proj1 (Forall_forall _ _) Hall m Hm).
  - intros s Hall. split; [now apply edited_nodes_consistent|].
    unfold handleDeleteFromContext.
    destruct (contextMenu s) as [menu|]; [|exact Hall].
    destruct (negb (isEditMode s)); [exact Hall|].
    destruct (target menu); cbn; [|exact Hall].
    apply Forall_forall. intros n Hn. apply filter_In in Hn as [Hn _].
    exact (proj1 (Forall_forall _ _) Hall n Hn).
Qed.

Lemma edit_keeps_ids (s : State) :
  List.map NodeObj.id (nodes (handleEditFromContext prompt s))
  = List.map NodeObj.id (nodes s).
Proof.
  unfold handleEditFromContext.
  destruct (contextMenu s) as [menu|]; [|reflexivity].
  destruct (target menu); [|reflexivity].
  destruct (negb (isEditMode s)); [reflexivity|].
  destruct (List.find _ _) as [[node|p]|]; try reflexivity.
  destruct (prompt _ _) as [next|]; [|reflexivity].
  destruct (negb (JsString.eqb next _)); [|reflexivity].
  cbn. rewrite map_map. apply map_ext. intros [n'|p]; [|reflexivity].
  now destruct (negb (JsString.eqb (RFNode.id n') (menu_id menu))).
Qed.

Lemma edit_keeps_edges (s : State) :
  edges (handleEditFromContext prompt s) = edges s.
Proof.
  unfold handleEditFromContext.
  destruct (contextMenu s) as [menu|]; [|reflexivity].
  destruct (target menu); [|reflexivity].
  destruct (negb (isEditMode s)); [reflexivity|].
  destruct (List.find _ _) as [[node|p]|]; try reflexivity.
  destruct (prompt _ _) as [next|]; [|reflexivity].
  now destruct (negb (JsString.eqb next _)).
Qed.

Lemma has_node_after_edit (s : State) (i : jsstring) :
  has_node (nodes s) i -> has_node (nodes (handleEditFromContext prompt s)) i.
Proof.
  intros (n & Hn & Hid).
  pose proof (edit_keeps_ids s) as Hids.
  assert (Hin : In (Some i) (List.map NodeObj.id (nodes s))).
  { rewrite <- Hid. now apply in_map. }
  rewrite <- Hids in Hin. apply in_map_iff in Hin as (n' & Hid' & Hn').
  now exists n'.
Qed.

Lemma has_node_after_delete (s : State) (menu : ContextMenu) (i : jsstring) :
  i <> menu_id menu ->
  has_node (nodes s) i ->
  has_node
    (List.filter (fun n => negb (node_id_is (menu_id menu) n)) (nodes s)) i.
Proof.
  intros Hne (n & Hn & Hid). exists n. split; [|exact Hid].
  apply filter_In. split; [exact Hn|].
  unfold node_id_is. rewrite Hid.
  apply negb_true_iff. now apply eqb_neq.
Qed.

(** X13.  A diagram in which every edge starts and ends at a node stays so
    under deleting and under editing through the context menu: deleting a
    node leaves no edge without its source or its target. *)
Theorem edges_stay_closed (s : State) (Hclosed : edges_closed s) :
  edges_closed (handleDeleteFromContext s)
  /\ edges_closed (handleEditFromContext prompt s).
Proof.
  split.
  - unfold handleDeleteFromContext.
    destruct (contextMenu s) as [menu|]; [|exact Hclosed].
    destruct (negb (isEditMode s)); [exact Hclosed|].
    destruct (target menu); unfold edges_closed; cbn; intros e He;
      apply filter_In in He as [He Hkeep].
    + apply andb_true_iff in Hkeep as [Hsrc Htgt].
      apply negb_true_iff, eqb_neq in Hsrc.
      apply negb_true_iff, eqb_neq in Htgt.
      destruct (Hclosed e He) as [Hs Ht].
      split; now apply has_node_after_delete.
    + exact (Hclosed e He).
  - intros e He. rewrite edit_keeps_edges in He.
    destruct (Hclosed e He) as [Hs Ht].
    split; now apply has_node_after_edit.
Qed.

Lemma filter_one_out {A B : Type} (key : A -> B) (f : A -> bool) (l : list A)
  (k : B) :
  NoDup (List.map key l) ->
  (forall x, In x l -> (f x = false <-> key x = k)) ->
  In k (List.map key l) ->
  S (List.length (List.filter f l)) = List.length l.
Proof.
  induction l as [|x l IH]; simpl; [intros _ _ []|].
  intros Hnd Hf Hin. inversion Hnd as [|? ? Hnotin Hnd']; subst.
  destruct (f x) eqn:E.
  - simpl. f_equal. apply IH; [exact Hnd'| |].
    + intros y Hy. apply Hf. now right.
    + destruct Hin as [Hk|Hk]; [|exact Hk].
      apply (Hf x (or_introl eq_refl)) in Hk. congruence.
  - f_equal. apply (Hf x (or_introl eq_refl)) in E.
    assert (Hall : List.filter f l = l).
    { clear IH Hin Hnd. induction l as [|y l IHl]; [reflexivity|].
      simpl. destruct (f y) eqn:Ey.
      - f_equal. apply IHl.
        + intros z Hz. apply Hf. simpl. tauto.
        + intros Hz. apply Hnotin. now right.
        + now inversion Hnd'.
      - exfalso. apply Hnotin. left.
        apply (Hf y (or_intror (or_introl eq_refl))) in Ey. congruence. }
    now rewrite Hall.
Qed.

(** X14.  When the node ids are pairwise distinct and the menu is open, in
    edit mode, on a node of the diagram, [handleDeleteFromContext] takes
    out exactly one node; on an edge with a unique id among distinct edge
    ids it takes out exactly one edge and no node. *)
Theorem handleDeleteFromContext_counts (s : State) (menu : ContextMenu)
  (Hmenu : contextMenu s = Some menu) (Hedit : isEditMode s = true) :
  let s' := handleDeleteFromContext s in
  match target menu with
  | TargetNode =>
      NoDup (List.map NodeObj.id (nodes s)) ->
      has_node (nodes s) (menu_id menu) ->
      S (List.length (nodes s')) = List.length (nodes s)
  | TargetEdge =>
      NoDup (List.map Edge.id (edges s)) ->
      In (menu_id menu) (List.map Edge.id (edges s)) ->
      S (List.length (edges s')) = List.length (edges s)
      /\ nodes s' = nodes s
  end.
Proof.
  cbv zeta. unfold handleDeleteFromContext. rewrite Hmenu, Hedit. cbn [negb].
  destruct (target menu); cbn.
  - intros Hnd (n & Hn & Hid).
    apply (filter_one_out NodeObj.id _ (nodes s) (Some (menu_id menu)) Hnd).
    + intros x _. apply keep_node_false.
    + rewrite <- Hid. now apply in_map.
  - intros Hnd Hin. split; [|reflexivity].
    apply (filter_one_out Edge.id _ (edges s) (menu_id menu) Hnd); [|exact Hin].
    intros x _. apply keep_edge_false.
Qed.

End InvariantFacts.

Lemma edges_stay_closed_witness :
  Diagram.edges_closed Samples.menu_on_node
  /\ Diagram.edges_closed (App.handleDeleteFromContext Samples.menu_on_node).
Proof.
  assert (H : Diagram.edges_closed Samples.menu_on_node).
  { intros e He. simpl in He.
    destruct He as [<-|[<-|[<-|[]]]]; split; eexists;
      first [ split; [left; reflexivity|reflexivity]
            | split; [right; left; reflexivity|reflexivity]
            | split; [right; right; left; reflexivity|reflexivity] ]. }
  split; [exact H|].
  exact (proj1 (edges_stay_closed (fun _ _ => None) Samples.menu_on_node H)).
Defined.

Lemma handleDeleteFromContext_counts_witness :
  S (List.length (App.nodes (App.handleDeleteFromContext Samples.menu_on_node)))
  = List.length (App.nodes Samples.menu_on_node).
Proof.
  refine (handleDeleteFromContext_counts Samples.menu_on_node
            (App.mkMenu 10%float 20%float App.TargetNode (lit "n2"))
            eq_refl eq_refl _ _).
  - repeat constructor; simpl; intuition discriminate.
  - eexists. split; [right; left; reflexivity|reflexivity].
Defined.

(* ===================================================================== *)
(** * Editing outside edit mode *)
(* ===================================================================== *)

Section ReadOnlyFacts.

Import App AppHandlers FlowDiagram.

Variable number_to_string : number -> jsstring.

Lemma edit_off_edit_mode (prompt : UiText -> jsstring -> option jsstring)
  (s : State) :
  isEditMode s = false -> handleEditFromContext prompt s = s.
Proof.
  intros H. unfold handleEditFromContext. rewrite H.
  destruct (contextMenu s) as [menu|]; [|reflexivity].
  now destruct (App.target menu).
Qed.

Lemma delete_off_edit_mode (s : State) :
  isEditMode s = false -> handleDeleteFromContext s = s.
Proof.
  intros H. unfold handleDeleteFromContext. rewrite H.
  now destruct (contextMenu s).
Qed.

Lemma step_read_only (e : Event) (s : State) :
  is_toggle e = false ->
  isEditMode s = false ->
  let s' := step number_to_string e s in
  nodes s' = nodes s /\ edges s' = edges s /\ isEditMode s' = false
  /\ text s' = text s /\ selectedModel s' = selectedModel s.
Proof.
  intros Htoggle Hedit. cbv zeta.
  destruct e; try discriminate; cbn; rewrite ?Hedit; cbn;
    try (now repeat split).
  - unfold onKeyDown. destruct (JsString.eqb key _); now repeat split.
  - destruct (displayed EditItem s); [|now repeat split].
    rewrite (edit_off_edit_mode prompt s Hedit). now repeat split.
  - destruct (displayed DeleteItem s); [|now repeat split].
    rewrite (delete_off_edit_mode s Hedit). now repeat split.
Qed.

(** X15.  While edit mode is off, no sequence of the following actions
    changes the nodes or the edges, as long as it does not switch edit mode
    on: context-menu requests on nodes and edges, clicks on the menu items,
    clicks on the pane, key presses, the node and edge changes computed by
    reactflow (drags, selections, removals), and connections.  Text and
    selected model stay as well.  (A plain click on a node is not one of
    these actions: it restyles the nodes in either mode.) *)
Theorem edit_actions_need_edit_mode (events : list Event) (s : State)
  (Hedit : isEditMode s = false)
  (Hnotoggle : forallb (fun e => negb (is_toggle e)) events = true) :
  let s' := run number_to_string events s in
  nodes s' = nodes s /\ edges s' = edges s /\ isEditMode s' = false
  /\ text s' = text s /\ selectedModel s' = selectedModel s.
Proof.
  cbv zeta. unfold run. revert s Hedit Hnotoggle.
  induction events as [|e events IH]; intros s Hedit Hnotoggle;
    [now repeat split|].
  simpl in Hnotoggle. apply andb_true_iff in Hnotoggle as [He Hrest].
  apply negb_true_iff in He.
  destruct (step_read_only e s He Hedit) as (Hn & Hed & Hm & Ht & Hsel).
  cbv zeta in Hn, Hed, Hm, Ht, Hsel. simpl.
  destruct (IH (step number_to_string e s) Hm Hrest)
    as (Hn' & Hed' & Hm' & Ht' & Hsel').
  rewrite Hn', Hed', Ht', Hsel'. now repeat split.
Qed.

(** X16.  [onConnect] calls [onEdgesChange] only in edit mode and only when
    the connection has a non-empty source and a non-empty target; it then
    adds one edge, from that source to that target, with the handles of the
    connection, no label, the id [e-<source>-<target>-<now>], and the same
    type, animation, marker and colours as the edges built by
    [processText]. *)
Theorem onConnect_adds_one_edge (isEditMode : bool) (now : number)
  (params : Connection) :
  match onConnect number_to_string isEditMode now params with
  | None =>
      isEditMode = false
      \/ truthy_opt (source params) = false
      \/ truthy_opt (target params) = false
  | Some changes =>
      isEditMode = true
      /\ exists src tgt item,
           source params = Some src /\ src <> []
           /\ target params = Some tgt /\ tgt <> []
           /\ changes = [AddEdge item]
           /\ Edge.source (edge item) = src
           /\ Edge.target (edge item) = tgt
           /\ Edge.id (edge item)
              = lit "e-" ++ src ++ lit "-" ++ tgt ++ lit "-" ++ number_to_string now
           /\ Edge.label (edge item) = None
           /\ edge_sourceHandle item = sourceHandle params
           /\ edge_targetHandle item = targetHandle params
           /\ forall fe i,
                Edge.type (edge item) = Edge.type (reactFlowEdge fe i)
                /\ Edge.animated (edge item) = Edge.animated (reactFlowEdge fe i)
                /\ Edge.markerEnd (edge item) = Edge.markerEnd (reactFlowEdge fe i)
                /\ Edge.style_stroke (edge item)
                   = Edge.style_stroke (reactFlowEdge fe i)
                /\ Edge.labelBgStyle (edge item)
                   = Edge.labelBgStyle (reactFlowEdge fe i)
                /\ Edge.labelStyle_fill (edge item)
                   = Edge.labelStyle_fill (reactFlowEdge fe i)
  end.
Proof.
  unfold onConnect.
  destruct isEditMode; cbn [negb orb]; [|now left].
  destruct (source params) as [[|c src]|] eqn:Hs; cbn; try (right; now left).
  destruct (target params) as [[|d tgt]|] eqn:Ht; cbn; try (right; now right).
  split; [reflexivity|].
  eexists (c :: src), (d :: tgt), _.
  repeat (split; [try reflexivity; try discriminate|]).
  reflexivity.
Qed.

End ReadOnlyFacts.

Lemma edit_actions_need_edit_mode_witness :
  App.nodes (FlowDiagram.run Samples.print_number Scenarios.attempts
                             Scenarios.locked)
  = List.map NodeObj.Full Samples.nodes
  /\ App.edges (FlowDiagram.run Samples.print_number Scenarios.attempts
                                Scenarios.locked)
     = Samples.edges.
Proof.
  destruct (edit_actions_need_edit_mode Samples.print_number Scenarios.attempts
              Scenarios.locked eq_refl eq_refl) as (Hn & He & _).
  split; [exact Hn|exact He].
Defined.

(* ===================================================================== *)
(** * The export menu *)
(* ===================================================================== *)

Section ExportMenuFacts.

Import ExportPanel ExportMenu.

Variable number_to_string : number -> jsstring.

(** X17.  [exportToPng] does nothing at all without the wrapper element or
    without nodes.  Otherwise it ends with [isExporting] false; it hands
    over the one file [process-schema.png], and leaves the error cleared,
    exactly when the viewport element is found and [toPng] succeeds; in
    every other case it hands over nothing and sets the error message. *)
Theorem exportToPng_outcomes (dom : Dom) (nodes : list RFNode.t) (w : World) :
  let w' := exportToPng dom nodes w in
  if negb (wrapper dom) || (List.length nodes =? 0)%nat then w' = w
  else
    isExporting w' = false
    /\ match viewport dom, toPng dom with
       | true, Some dataUrl =>
           error w' = None
           /\ saved w'
              = saved w ++ [mkFile (lit "process-schema.png")
                                   (ImageContent dataUrl)]
       | _, _ => error w' = Some MSG_PNG /\ saved w' = saved w
       end.
Proof.
  cbv zeta. unfold exportToPng.
  destruct (negb (wrapper dom) || (List.length nodes =? 0)%nat);
    [reflexivity|].
  destruct (viewport dom); cbn; [|now repeat split].
  destruct (toPng dom); now repeat split.
Qed.

Lemma exportToPng_png_only (dom : Dom) (nodes : list RFNode.t) (w : World) :
  (saved (exportToPng dom nodes w) = saved w
   \/ exists f,
        saved (exportToPng dom nodes w) = saved w ++ [f]
        /\ file_name f = lit "process-schema." ++ lit "png")
  /\ (nodes = [] -> exportToPng dom nodes w = w).
Proof.
  unfold exportToPng. split.
  - destruct (negb (wrapper dom) || (List.length nodes =? 0)%nat); [now left|].
    destruct (viewport dom); cbn; [|now left].
    destruct (toPng dom); [|now left].
    right. eexists. split; reflexivity.
  - intros ->. cbn. now rewrite orb_true_r.
Qed.

(** X18.  Whatever the format asked for, [handleExportFormat] hands over at
    most one file, named [process-schema.] followed by the format ([mmd]
    for [mermaid]); it hands over nothing when there is no node or when the
    format is none of [png], [bpmn], [mermaid], [json]; and when the menu
    is enabled ([isDisabled] false) each of [bpmn], [mermaid] and [json]
    does hand over its file. *)
Theorem handleExportFormat_files (dom : Dom) (nodes : list RFNode.t)
  (edges : list Edge.t) (format : jsstring) (w : World) :
  let w' := handleExportFormat number_to_string dom nodes edges format w in
  (saved w' = saved w
   \/ exists f,
        saved w' = saved w ++ [f]
        /\ file_name f
           = lit "process-schema."
             ++ (if JsString.eqb format (lit "mermaid") then lit "mmd"
                 else format))
  /\ (nodes = [] -> w' = w)
  /\ (format <> lit "png" -> format <> lit "bpmn" ->
      format <> lit "mermaid" -> format <> lit "json" -> w' = w)
  /\ (isDisabled (isExporting w) nodes = false ->
      format = lit "bpmn" \/ format = lit "mermaid" \/ format = lit "json" ->
      exists f, saved w' = saved w ++ [f]).
Proof.
  cbv zeta. unfold handleExportFormat.
  destruct (JsString.eqb format (lit "png")) eqn:Epng.
  { apply eqb_eq in Epng. subst format.
    pose proof (exportToPng_png_only dom nodes w) as Hpng.
    split; [exact (proj1 Hpng)|]. split; [exact (proj2 Hpng)|].
    split; [congruence|].
    intros _ [H|[H|H]]; discriminate. }
  destruct (JsString.eqb format (lit "bpmn")) eqn:Ebpmn.
  { apply eqb_eq in Ebpmn. subst format. unfold exportToBpmn.
    destruct nodes as [|n nodes]; cbn.
    - split; [now left|]. split; [reflexivity|]. split; [congruence|].
      unfold isDisabled. cbn. rewrite orb_true_r. discriminate.
    - split; [right; eexists; split; reflexivity|].
      split; [discriminate|]. split; [congruence|].
      intros _ _. eexists. reflexivity. }
  destruct (JsString.eqb format (lit "mermaid")) eqn:Emmd.
  { apply eqb_eq in Emmd. subst format. unfold exportToMermaid.
    destruct nodes as [|n nodes]; cbn.
    - split; [now left|]. split; [reflexivity|]. split; [congruence|].
      unfold isDisabled. cbn. rewrite orb_true_r. discriminate.
    - split; [right; eexists; split; reflexivity|].
      split; [discriminate|]. split; [congruence|].
      intros _ _. eexists. reflexivity. }
  destruct (JsString.eqb format (lit "json")) eqn:Ejson.
  { apply eqb_eq in Ejson. subst format. unfold exportToJson.
    destruct nodes as [|n nodes]; cbn.
    - split; [now left|]. split; [reflexivity|]. split; [congruence|].
      unfold isDisabled. cbn. rewrite orb_true_r. discriminate.
    - split; [right; eexists; split; reflexivity|].
      split; [discriminate|]. split; [congruence|].
      intros _ _. eexists. reflexivity. }
  split; [now left|]. split; [reflexivity|]. split; [reflexivity|].
  apply eqb_neq in Ebpmn, Emmd, Ejson.
  intros _ [H|[H|H]]; contradiction.
Qed.

End ExportMenuFacts.

Section ExportTextFacts.

Import ExportPanel Diagram.

Lemma count_lf_app (a b : jsstring) :
  count_lf (a ++ b) = (count_lf a + count_lf b)%nat.
Proof. unfold count_lf. now rewrite filter_app, length_app. Qed.

Lemma count_lf_lines {A : Type} (f : A -> jsstring) (l : list A) :
  (forall x, In x l -> count_lf (f x) = 1%nat) ->
  count_lf (List.concat (List.map f l)) = List.length l.
Proof.
  induction l as [|x l IH]; intros H; [reflexivity|].
  simpl. rewrite count_lf_app, (H x (or_introl eq_refl)), IH; [reflexivity|].
  intros y Hy. apply H. now right.
Qed.

(** X19.  When no node id, node text, edge source, edge target or edge
    label contains a line feed, the Mermaid text of a non-empty node list
    has exactly one line feed for the heading, one per node and one per
    edge. *)
Theorem exportToMermaid_line_count (nodes : list RFNode.t) (edges : list Edge.t)
  (Hnodes : nodes <> [])
  (Hplain_nodes :
     Forall (fun n => no_lf (RFNode.id n)
                      /\ no_lf (NodeData.text (RFNode.data n))) nodes)
  (Hplain_edges :
     Forall (fun e => no_lf (Edge.source e) /\ no_lf (Edge.target e)
                      /\ forall l, Edge.label e = Some l -> no_lf l) edges) :
  exists d,
    exportToMermaid nodes edges = Some d
    /\ count_lf (content d)
       = (1 + List.length nodes + List.length edges)%nat.
Proof.
  unfold exportToMermaid. rewrite (nonempty_length nodes Hnodes).
  eexists. split; [reflexivity|]. cbn [content].
  rewrite !fold_left_append, !count_lf_app.
  rewrite (count_lf_lines _ nodes), (count_lf_lines _ edges); [reflexivity| |].
  - intros e He.
    destruct (proj1 (Forall_forall _ _) Hplain_edges e He) as (Hs & Ht & Hl).
    unfold no_lf in *. rewrite !count_lf_app, Hs, Ht.
    destruct (Edge.label e) as [[|c l]|]; cbn [truthy_opt truthy];
      rewrite ?count_lf_app, ?(Hl _ eq_refl); reflexivity.
  - intros n Hn.
    destruct (proj1 (Forall_forall _ _) Hplain_nodes n Hn) as (Hi & Ht).
    unfold no_lf in *. rewrite !count_lf_app, Hi, Ht.
    now destruct (isAction n).
Qed.

Lemma reimported_node (fn : FlowNode.t) :
  reactFlowNode
    (FlowNode.mk
       (ExportNode.id (export_node (reactFlowNode fn)))
       (ExportNode.label (export_node (reactFlowNode fn)))
       (Some (ExportNode.type (export_node (reactFlowNode fn))))
       (ExportNode.actor (export_node (reactFlowNode fn)))
       None)
  = reactFlowNode
      (FlowNode.mk (FlowNode.id fn) (FlowNode.label fn) (FlowNode.type fn)
                   (FlowNode.actor fn) None).
Proof.
  destruct fn as [id label type actor span].
  unfold export_node, isAction, reactFlowNode. cbn -[lit JsString.eqb].
  destruct type as [ty|]; [|reflexivity].
  destruct (JsString.eqb ty (lit "action")); [|reflexivity].
  destruct actor as [[|c a]|]; reflexivity.
Qed.

(** X20.  Exporting to JSON what [processText] has just built out of a
    response gives the response back: the exported edges carry the [from],
    [to] and [label] of the response edges, the exported nodes its [id],
    [label] and [actor], with [type] brought to ["action"] or ["decision"];
    reading the exported objects as a response again yields the same React
    Flow edges and, the source spans apart, the same React Flow nodes. *)
Theorem exportToJson_gives_response_back (data : FlowData.t)
  (Hnodes : FlowData.nodes data <> []) :
  exists d,
    exportToJson (reactFlowNodes data) (reactFlowEdges data) = Some d
    /\ List.map
         (fun o => FlowEdge.mk (ExportEdge.from o) (ExportEdge.to o)
                               (ExportEdge.label o))
         (ExportData.edges (content d))
       = FlowData.edges data
    /\ List.map ExportEdge.id (ExportData.edges (content d))
       = List.map Edge.id (reactFlowEdges data)
    /\ List.map
         (fun o => (ExportNode.id o, ExportNode.label o, ExportNode.actor o))
         (ExportData.nodes (content d))
       = List.map
           (fun n => (FlowNode.id n, FlowNode.label n, FlowNode.actor n))
           (FlowData.nodes data)
    /\ List.map
         (fun o =>
            reactFlowNode
              (FlowNode.mk (ExportNode.id o) (ExportNode.label o)
                           (Some (ExportNode.type o)) (ExportNode.actor o) None))
         (ExportData.nodes (content d))
       = List.map
           (fun n =>
              reactFlowNode
                (FlowNode.mk (FlowNode.id n) (FlowNode.label n) (FlowNode.type n)
                             (FlowNode.actor n) None))
           (FlowData.nodes data).
Proof.
  unfold exportToJson.
  assert (Hne : reactFlowNodes data <> []).
  { unfold reactFlowNodes. destruct (FlowData.nodes data); [congruence|discriminate]. }
  rewrite (nonempty_length _ Hne).
  eexists. split; [reflexivity|]. cbn [content ExportData.nodes ExportData.edges].
  assert (Hedges :
    forall k l,
      List.map
        (fun o => FlowEdge.mk (ExportEdge.from o) (ExportEdge.to o)
                              (ExportEdge.label o))
        (List.map export_edge (mapi_from k reactFlowEdge l)) = l).
  { intros k l. revert k. induction l as [|[f t lb] l IH]; intros k;
      [reflexivity|]. simpl. now rewrite IH. }
  split; [apply Hedges|].
  split; [now rewrite map_map|].
  unfold reactFlowNodes. rewrite !map_map. split.
  - reflexivity.
  - apply map_ext. intros fn. apply reimported_node.
Qed.

End ExportTextFacts.

Lemma sample_nodes_plain :
  Forall (fun n => Diagram.no_lf (RFNode.id n)
                   /\ Diagram.no_lf (NodeData.text (RFNode.data n)))
         Samples.nodes.
Proof. repeat constructor. Qed.

Lemma sample_edges_plain :
  Forall (fun e => Diagram.no_lf (Edge.source e) /\ Diagram.no_lf (Edge.target e)
                   /\ forall l, Edge.label e = Some l -> Diagram.no_lf l)
         Samples.edges.
Proof.
  repeat constructor; intros l H; injection H as <- || discriminate H;
    reflexivity.
Qed.

Lemma exportToMermaid_line_count_witness :
  exists d,
    ExportPanel.exportToMermaid Samples.nodes Samples.edges = Some d
    /\ Diagram.count_lf (ExportPanel.content d) = 7%nat.
Proof.
  exact (exportToMermaid_line_count Samples.nodes Samples.edges
           sample_nodes_nonempty sample_nodes_plain sample_edges_plain).
Defined.

Lemma exportToJson_gives_response_back_witness :
  exists d,
    ExportPanel.exportToJson Samples.nodes Samples.edges = Some d
    /\ List.map
         (fun o => FlowEdge.mk (ExportPanel.ExportEdge.from o)
                               (ExportPanel.ExportEdge.to o)
                               (ExportPanel.ExportEdge.label o))
         (ExportPanel.ExportData.edges (ExportPanel.content d))
       = FlowData.edges Samples.flow.
Proof.
  destruct (exportToJson_gives_response_back Samples.flow)
    as (d & Hd & Hedges & _); [discriminate|].
  exists d. split; [exact Hd|exact Hedges].
Defined.

(* ===================================================================== *)
(** * From the model list to the first build *)
(* ===================================================================== *)

Section SelectionFacts.

Variable API_URL : jsstring.
Variable models_backend : Http.Request -> Http.FetchResult ModelSelector.ModelsData.

(** X21.  On a fresh page with no model selected, a successful answer to
    [GET /models] with a non-empty list makes [ModelSelector] call
    [onModelChange] once; applied by [App], the call selects the first
    model and clears the error, and the dropdown then shows that model as
    selected.  When its id is not empty, running the effect again with the
    new selection makes no further call, and pressing build on a text that
    is not blank sends the request carrying that id. *)
Theorem auto_selection_enables_build (s : App.State)
  (r : Http.Response ModelSelector.ModelsData)
  (first : ModelSelector.Model) (rest : list ModelSelector.Model)
  (Hnone : App.selectedModel s = [])
  (Hresp : models_backend (ModelSelector.models_request API_URL)
           = Http.Responded r)
  (Hok : Http.ok r = true)
  (Hjson : Http.json r = Some (ModelSelector.mkData (Some (first :: rest)))) :
  let w' :=
    Eff.exec (ModelSelector.fetchModels API_URL models_backend
                                        (App.selectedModel s))
             ModelSelector.mounted in
  let s' :=
    fold_left (fun st modelId => AppHandlers.onModelChange modelId st)
              (ModelSelector.modelChanges w') s in
  ModelSelector.modelChanges w' = [ModelSelector.id first]
  /\ App.selectedModel s' = ModelSelector.id first
  /\ App.error s' = None
  /\ App.nodes s' = App.nodes s /\ App.edges s' = App.edges s
  /\ App.text s' = App.text s
  /\ ModelSelector.render (App.selectedModel s') (ModelSelector.state w')
     = ModelSelector.DropdownView (first :: rest) (Some first)
  /\ (ModelSelector.id first <> [] ->
      ModelSelector.modelChanges
        (Eff.exec (ModelSelector.fetchModels API_URL models_backend
                                             (App.selectedModel s')) w')
      = ModelSelector.modelChanges w'
      /\ forall backend elk_layout sent,
           truthy (trim (App.text s)) = true ->
           App.sent
             (Eff.exec (App.processText API_URL backend elk_layout)
                       (App.mkWorld s' sent))
           = sent ++ [App.process_text_request API_URL (App.text s)
                                               (ModelSelector.id first)]).
Proof.
  cbv zeta. rewrite Hnone.
  assert (Hrun :
    forall sel w,
      Eff.exec (ModelSelector.fetchModels API_URL models_backend sel) w
      = ModelSelector.mkWorld
          (ModelSelector.mkState (Some (first :: rest)) false None)
          (ModelSelector.sent w ++ [ModelSelector.models_request API_URL])
          (ModelSelector.modelChanges w
             ++ (if truthy sel then [] else [ModelSelector.id first]))).
  { intros sel [st snt chg].
    unfold Eff.exec, ModelSelector.fetchModels, Eff.try_catch_finally, Eff.bind,
      ModelSelector.fetch, ModelSelector.update, Eff.modify. cbn.
    rewrite Hresp. cbn. rewrite Hok. cbn.
    unfold ModelSelector.response_json. rewrite Hjson. cbn.
    destruct (truthy sel); cbn; [now rewrite app_nil_r|reflexivity]. }
  rewrite !Hrun. cbn.
  repeat (split; [reflexivity|]).
  split.
  - unfold ModelSelector.render. cbn. now rewrite eqb_refl.
  - intros Hid. apply truthy_nonempty in Hid. rewrite Hid. cbn.
    split; [reflexivity|].
    intros backend elk_layout sent Htext.
    rewrite processText_exec. cbv zeta. cbn [App.state App.sent].
    change (App.text (AppHandlers.onModelChange (ModelSelector.id first) s))
      with (App.text s).
    change (App.selectedModel
              (AppHandlers.onModelChange (ModelSelector.id first) s))
      with (ModelSelector.id first).
    rewrite Htext, Hid. cbn [negb].
    destruct (backend _) as [|r']; [reflexivity|].
    destruct (negb (Http.ok r')); [reflexivity|].
    destruct (Http.json r'); reflexivity.
Qed.

End SelectionFacts.

Lemma auto_selection_enables_build_witness :
  App.selectedModel
    (fold_left (fun st modelId => AppHandlers.onModelChange modelId st)
       (ModelSelector.modelChanges
          (Eff.exec (ModelSelector.fetchModels Samples.api Samples.models_backend
                       (App.selectedModel Scenarios.app_on_mount))
                    ModelSelector.mounted))
       Scenarios.app_on_mount)
  = lit "model-a".
Proof.
  exact (proj1 (proj2 (auto_selection_enables_build Samples.api
                         Samples.models_backend Scenarios.app_on_mount
                         (Http.mkResponse 200
                            (Some (ModelSelector.mkData (Some Samples.models))))
                         _ _ eq_refl eq_refl eq_refl eq_refl))).
Defined.

(* ===================================================================== *)
(** * What a build and an export depend on *)
(* ===================================================================== *)

Section DependenceFacts.

Import App.

Variable API_URL : jsstring.
Variable backend : Http.Request -> Http.FetchResult FlowData.t.
Variable elk_layout : Elk.Graph -> Elk.Outcome.

(** X22.  A build that ends without an error replaces the diagram: the
    nodes and edges it stores are the same whatever nodes and edges were
    there before; a build that ends with an error keeps them. *)
Theorem processText_replaces_diagram (w : World)
  (nodes0 : list NodeObj.t) (edges0 : list Edge.t) :
  let w0 :=
    mkWorld (setEdges (fun _ => edges0) (setNodes (fun _ => nodes0) (state w)))
            (sent w) in
  let w' := Eff.exec (processText API_URL backend elk_layout) w in
  let w0' := Eff.exec (processText API_URL backend elk_layout) w0 in
  error (state w0') = error (state w')
  /\ match error (state w') with
     | None =>
         nodes (state w0') = nodes (state w')
         /\ edges (state w0') = edges (state w')
     | Some _ =>
         nodes (state w') = nodes (state w)
         /\ edges (state w') = edges (state w)
         /\ nodes (state w0') = nodes0
         /\ edges (state w0') = edges0
     end.
Proof.
  cbv zeta. rewrite !processText_exec. cbv zeta. cbn [state sent].
  change (text (setEdges (fun _ => edges0) (setNodes (fun _ => nodes0) (state w))))
    with (text (state w)).
  change (selectedModel
            (setEdges (fun _ => edges0) (setNodes (fun _ => nodes0) (state w))))
    with (selectedModel (state w)).
  destruct (negb (truthy (trim (text (state w))))); [now repeat split|].
  destruct (negb (truthy (selectedModel (state w)))); [now repeat split|].
  destruct (backend _) as [|r]; [now repeat split|].
  destruct (negb (Http.ok r)); [now repeat split|].
  destruct (Http.json r); now repeat split.
Qed.

(** X23.  The Mermaid text does not depend on where the nodes are: moving
    nodes, by hand or by a new layout, leaves it as it is. *)
Theorem exportToMermaid_ignores_positions (nodes : list RFNode.t)
  (edges : list Edge.t) (place : RFNode.t -> XYPosition.t) :
  ExportPanel.exportToMermaid
    (List.map (fun n => RFNode.with_position n (place n)) nodes) edges
  = ExportPanel.exportToMermaid nodes edges.
Proof.
  unfold ExportPanel.exportToMermaid. rewrite length_map.
  destruct (List.length nodes =? 0)%nat; [reflexivity|].
  do 2 f_equal. rewrite !fold_left_append. do 2 f_equal.
  rewrite map_map. reflexivity.
Qed.

End DependenceFacts.
